(** * Telegram Folder Publisher (main.py): a shallow embedding

    The development follows the layout of [main.py]:
    - Python string and regular-expression primitives used by the script,
    - [escape_markdown_v2],
    - the operating-system interface the script talks to and the monad
      in which its effects are threaded,
    - [RuntimeManager], [create_multivolume_archive],
      [TelegramPoster.send_document] and the tail of [main]
      (renaming, caption synthesis, the upload loop).

    Python [str] values are modelled by [string].  All characters the
    script inspects (the backtick, the escaped punctuation characters,
    the newline, the path separator) are ASCII, so the byte-wise reading of a
    UTF-8 encoded text and the code-point-wise reading agree on every
    function below. *)

From Stdlib Require Import String Ascii List ZArith Lia Bool Arith PeanoNat.
From Stdlib Require Import DecimalString Permutation Sorted.
Import ListNotations.
Local Open Scope string_scope.
Local Open Scope list_scope.

(* ================================================================ *)
(** * Python string primitives *)
(* ================================================================ *)

Module PyStr.

(** [text.split(sep)] for a one-character separator. *)
Fixpoint split (text : string) (sep : ascii) : list string :=
  match text with
  | EmptyString => [EmptyString]
  | String c rest =>
      if Ascii.eqb c sep then EmptyString :: split rest sep
      else match split rest sep with
           | [] => [String c EmptyString]
           | part :: parts => String c part :: parts
           end
  end.

(** [sep.join(parts)]. *)
Fixpoint join (sep : string) (parts : list string) : string :=
  match parts with
  | [] => EmptyString
  | p :: ps =>
      match ps with
      | [] => p
      | _ :: _ => (p ++ sep ++ join sep ps)%string
      end
  end.

(** [text.count(c)] for a one-character argument. *)
Fixpoint count (text : string) (c : ascii) : nat :=
  match text with
  | EmptyString => 0
  | String d rest => (if Ascii.eqb d c then 1 else 0) + count rest c
  end.

(** [text.endswith(suffix)]. *)
Definition endswith (text suffix : string) : bool :=
  let n := String.length text in
  let k := String.length suffix in
  Nat.leb k n && String.eqb (substring (n - k) k text) suffix.

(** [enumerate(xs)] as the list of its pairs. *)
Definition enumerate {A : Type} (xs : list A) : list (nat * A) :=
  combine (seq 0 (length xs)) xs.

(** [str(n)] for a non-negative integer. *)
Definition str_of_nat (n : nat) : string :=
  NilZero.string_of_uint (Nat.to_uint n).

(** Truthiness of a [str]: the empty string is falsy. *)
Definition truthy (s : string) : bool :=
  negb (String.eqb s EmptyString).

End PyStr.

(* ================================================================ *)
(** * The fragment of [re] used by the script *)
(* ================================================================ *)

Module Re.

(** Characters that [re.escape] prefixes with a backslash
    (CPython 3.7 and later: [_special_chars_map]). *)
Definition special_chars : list ascii :=
  list_ascii_of_string "()[]{}?*+-|^$\.&~# "
  ++ [ascii_of_nat 9; ascii_of_nat 10; ascii_of_nat 13;
      ascii_of_nat 11; ascii_of_nat 12].

Definition is_special (c : ascii) : bool :=
  existsb (Ascii.eqb c) special_chars.

(** [re.escape(s)]. *)
Fixpoint escape (s : string) : string :=
  match s with
  | EmptyString => EmptyString
  | String c rest =>
      if is_special c then String "\" (String c (escape rest))
      else String c (escape rest)
  end.

(** Members of a bracketed character set. *)
Inductive class_item : Type :=
| CLit (c : ascii)
| CRange (lo hi : ascii).

(** The text between [[] and the first unescaped []], with what
    follows the closing bracket. *)
Fixpoint read_class_body (s : list ascii) : option (list ascii * list ascii) :=
  match s with
  | [] => None
  | c :: rest =>
      if Ascii.eqb c "]" then Some ([], rest)
      else if Ascii.eqb c "\" then
        match rest with
        | [] => None
        | d :: rest' =>
            match read_class_body rest' with
            | Some (body, after) => Some (c :: d :: body, after)
            | None => None
            end
        end
      else
        match read_class_body rest with
        | Some (body, after) => Some (c :: body, after)
        | None => None
        end
  end.

(** Items of a set body: a backslash makes the next character a
    literal, [lo-hi] is a range, a [-] with nothing after it is a
    literal. *)
Fixpoint parse_class (body : list ascii) : list class_item :=
  match body with
  | [] => []
  | c :: rest =>
      if Ascii.eqb c "\" then
        match rest with
        | [] => [CLit c]
        | lo :: rest1 =>
            match rest1 with
            | d :: (e :: rest2) =>
                if Ascii.eqb d "-" then
                  if Ascii.eqb e "\" then
                    match rest2 with
                    | hi :: rest3 => CRange lo hi :: parse_class rest3
                    | [] => CLit lo :: parse_class rest1
                    end
                  else CRange lo e :: parse_class rest2
                else CLit lo :: parse_class rest1
            | _ => CLit lo :: parse_class rest1
            end
        end
      else
        match rest with
        | d :: (e :: rest2) =>
            if Ascii.eqb d "-" then
              if Ascii.eqb e "\" then
                match rest2 with
                | hi :: rest3 => CRange c hi :: parse_class rest3
                | [] => CLit c :: parse_class rest
                end
              else CRange c e :: parse_class rest2
            else CLit c :: parse_class rest
        | _ => CLit c :: parse_class rest
        end
  end.

(** A pattern of the shape [([...])]: one capturing group around one
    character set.  This is the only shape the script builds; any
    other pattern is outside the modelled fragment. *)
Definition compile (pattern : string) : option (list class_item) :=
  match list_ascii_of_string pattern with
  | p :: b :: s =>
      if Ascii.eqb p "(" && Ascii.eqb b "[" then
        match read_class_body s with
        | Some (body, after) =>
            match after with
            | [q] => if Ascii.eqb q ")" then Some (parse_class body) else None
            | _ => None
            end
        | None => None
        end
      else None
  | _ => None
  end.

Definition item_matches (c : ascii) (it : class_item) : bool :=
  match it with
  | CLit a => Ascii.eqb a c
  | CRange lo hi =>
      Nat.leb (nat_of_ascii lo) (nat_of_ascii c) && Nat.leb (nat_of_ascii c) (nat_of_ascii hi)
  end.

Definition class_matches (cls : list class_item) (c : ascii) : bool :=
  existsb (item_matches c) cls.

(** Expansion of a replacement template: [\\] is a backslash and [\1]
    is the text of group 1. *)
Fixpoint expand (repl : string) (group1 : string) : string :=
  match repl with
  | EmptyString => EmptyString
  | String c rest =>
      match rest with
      | String d rest' =>
          if Ascii.eqb c "\" && Ascii.eqb d "\" then String "\" (expand rest' group1)
          else if Ascii.eqb c "\" && Ascii.eqb d "1" then (group1 ++ expand rest' group1)%string
          else String c (expand rest group1)
      | EmptyString => String c EmptyString
      end
  end.

(** Left-to-right replacement of every one-character match. *)
Fixpoint sub_class (cls : list class_item) (repl : string) (s : string) : string :=
  match s with
  | EmptyString => EmptyString
  | String c rest =>
      if class_matches cls c
      then (expand repl (String c EmptyString) ++ sub_class cls repl rest)%string
      else String c (sub_class cls repl rest)
  end.

(** [re.sub(pattern, repl, s)] on the fragment above. *)
Definition sub (pattern repl s : string) : string :=
  match compile pattern with
  | Some cls => sub_class cls repl s
  | None => s
  end.

End Re.

(* ================================================================ *)
(** * 3. Utility functions: [escape_markdown_v2] *)
(* ================================================================ *)

Definition backtick : ascii := "`"%char.

(** One iteration of [for i, part in enumerate(parts)]. *)
Definition escape_step (escape_chars : string)
    (escaped_parts : list string) (ip : nat * string) : list string :=
  let '(i, part) := ip in
  if Nat.eqb (Nat.modulo i 2) 0 then
    escaped_parts ++
      [Re.sub ("([" ++ Re.escape escape_chars ++ "])")%string "\\\1" part]
  else
    escaped_parts ++ [part].

Definition escape_markdown_v2 (text : string) : string :=
  let escape_chars := "_*[]()~>#+-=|{}.!" in
  let parts := PyStr.split text backtick in
  let escaped_parts :=
    fold_left (escape_step escape_chars) (PyStr.enumerate parts) [] in
  PyStr.join "`" escaped_parts.

(** ** The escaping rule as the specification words it *)

(** The escape set. *)
Definition escape_set : list ascii :=
  list_ascii_of_string "_*[]()~>#+-=|{}.!".

Definition in_escape_set (c : ascii) : bool :=
  existsb (Ascii.eqb c) escape_set.

(** A plain run: each character of the escape set gets exactly one
    backslash in front of it, every other character is copied. *)
Fixpoint escape_plain (run : string) : string :=
  match run with
  | EmptyString => EmptyString
  | String c rest =>
      if in_escape_set c then String "\" (String c (escape_plain rest))
      else String c (escape_plain rest)
  end.

(** Runs alternate between plain and verbatim, starting with [plain]. *)
Fixpoint alternate (plain : bool) (runs : list string) : list string :=
  match runs with
  | [] => []
  | r :: rs => (if plain then escape_plain r else r) :: alternate (negb plain) rs
  end.

Definition no_backtick (run : string) : Prop := PyStr.count run backtick = 0.

(* ================================================================ *)
(** * Exceptions, results and configuration values *)
(* ================================================================ *)

(** The response object of an HTTP request, as far as the script
    reads it. *)
Record response : Type := {
  status_code : Z;
  response_text : string
}.

(** Exceptions (instances of [Exception]) the modelled code can meet,
    with the part of the class hierarchy its [except] clauses test. *)
Inductive exn : Type :=
| FileNotFoundError (msg : string)
| OSError (msg : string)
| CalledProcessError (returncode : Z) (stderr : string)
| RequestException (msg : string) (resp : option response)
| TypeError (msg : string)
| AttributeError (msg : string)
| OtherException (msg : string).

Definition is_FileNotFoundError (e : exn) : bool :=
  match e with FileNotFoundError _ => true | _ => false end.

(** [FileNotFoundError] is a subclass of [OSError], and so is
    [requests.exceptions.RequestException] (through [IOError]). *)
Definition is_OSError (e : exn) : bool :=
  match e with
  | FileNotFoundError _ | OSError _ | RequestException _ _ => true
  | _ => false
  end.

Definition is_CalledProcessError (e : exn) : bool :=
  match e with CalledProcessError _ _ => true | _ => false end.

Definition is_RequestException (e : exn) : bool :=
  match e with RequestException _ _ => true | _ => false end.

Definition is_Exception (e : exn) : bool := true.

Inductive result (A : Type) : Type :=
| Ret (a : A)
| Raise (e : exn).
Arguments Ret {A} a.
Arguments Raise {A} e.

(** Python numbers as the script uses them: integer literals, the
    subtraction of two clock readings and the comparison [>].  The
    readings of [time.time()] are floats; every statement below holds
    for any interpretation of these three operations. *)
Class PyNum (num : Type) : Type := {
  num_of_Z : Z -> num;
  num_sub : num -> num -> num;
  num_gtb : num -> num -> bool
}.

(** Values produced by [json.load]. *)
#[local] Set Warnings "-register-all".
Inductive json (num : Type) : Type :=
| JNull
| JBool (b : bool)
| JNum (n : num)
| JStr (s : string)
| JList (items : list (json num))
| JDict (entries : list (string * json num)).
Arguments JNull {num}.
Arguments JBool {num} b.
Arguments JNum {num} n.
Arguments JStr {num} s.
Arguments JList {num} items.
Arguments JDict {num} entries.

Fixpoint assoc {A : Type} (key : string) (entries : list (string * A)) : option A :=
  match entries with
  | [] => None
  | (k, v) :: rest => if String.eqb k key then Some v else assoc key rest
  end.

(** [d.get(key, default)]; a value that is not a dict has no [get]. *)
Definition dict_get {num : Type} (d : json num) (key : string) (default : json num)
  : result (json num) :=
  match d with
  | JDict entries =>
      Ret (match assoc key entries with Some v => v | None => default end)
  | _ => Raise (AttributeError "object has no attribute 'get'")
  end.

(** [x > y] for a float [x] and a configuration value [y]. *)
Definition py_gt {num : Type} `{PyNum num} (x : num) (y : json num) : result bool :=
  match y with
  | JNum n => Ret (num_gtb x n)
  | JBool b => Ret (num_gtb x (num_of_Z (if b then 1 else 0)))
  | _ => Raise (TypeError "'>' not supported between instances")
  end.

(* ================================================================ *)
(** * Paths *)
(* ================================================================ *)

(** A [pathlib.Path] is kept as its string form (POSIX flavour). *)
Definition Path : Type := string.

(** [p.name]: the final component. *)
Definition path_name (p : Path) : string :=
  last (PyStr.split p "/") EmptyString.

(** [p.parent]. *)
Definition path_parent (p : Path) : Path :=
  PyStr.join "/" (removelast (PyStr.split p "/")).

(** [sorted(paths)]: insertion into an ordered list, comparing the
    string forms. *)
Fixpoint insert_sorted (p : Path) (ps : list Path) : list Path :=
  match ps with
  | [] => [p]
  | q :: qs => if String.leb p q then p :: ps else q :: insert_sorted p qs
  end.

Definition sorted (ps : list Path) : list Path :=
  fold_right insert_sorted [] ps.

(* ================================================================ *)
(** * The outside world and the effect monad *)
(* ================================================================ *)

Inductive log_level : Type := DEBUG | INFO | WARNING | ERROR | CRITICAL.

(** The [data=] and [files=] arguments of [requests.post]. *)
Record payload (num : Type) : Type := {
  chat_id : json num;
  caption : string;
  parse_mode : string
}.
Arguments chat_id {num} _.
Arguments caption {num} _.
Arguments parse_mode {num} _.

Record document : Type := {
  doc_name : string;
  doc_file : Path;
  doc_mime : string
}.

(** What the operating system, the external programs and the network
    answer.  [W] is the state of everything outside the script. *)
Class OS (num W : Type) : Type := {
  time_time : W -> num * W;
  datetime_now : W -> (string * string) * W;
  path_is_dir : Path -> W -> bool;
  path_exists : Path -> W -> bool;
  path_glob : Path -> string -> W -> list Path;
  path_rename : Path -> Path -> W -> result unit * W;
  subprocess_run : list string -> W -> result string * W;
  open_rb : Path -> W -> result unit * W;
  requests_post : string -> payload num -> document -> json num -> W -> result response * W;
  time_sleep : Z -> W -> W;
  (* the exception a query of the file system raises instead of
     answering, if it raises one *)
  path_is_dir_error : Path -> W -> option exn;
  path_glob_error : Path -> string -> W -> option exn;
  path_exists_error : Path -> W -> option exn
}.

(** Effects in the order the script performs them.  A log record is
    identified by its level and the source text of its message;
    interpolated values are not expanded. *)
Inductive event (num : Type) : Type :=
| EvLog (level : log_level) (msg : string)
| EvClock (t : num)
| EvNow (utc_str jalali_str : string)
| EvRun (command : list string)
| EvRename (src dst : Path)
| EvOpen (file : Path)
| EvPost (url : string) (data : payload num) (files : document)
         (timeout : json num) (outcome : result response)
| EvSleep (seconds : Z).
Arguments EvLog {num} level msg.
Arguments EvClock {num} t.
Arguments EvNow {num} utc_str jalali_str.
Arguments EvRun {num} command.
Arguments EvRename {num} src dst.
Arguments EvOpen {num} file.
Arguments EvPost {num} url data files timeout outcome.
Arguments EvSleep {num} seconds.

(** A computation: from a world to a result, the next world and the
    effects performed. *)
Definition M (num W A : Type) : Type := W -> result A * W * list (event num).

Section Effects.
Context {num W : Type} {NUM : PyNum num} {OSI : OS num W}.

Definition ret {A : Type} (a : A) : M num W A :=
  fun w => (Ret a, w, []).

Definition raise {A : Type} (e : exn) : M num W A :=
  fun w => (Raise e, w, []).

Definition bind {A B : Type} (m : M num W A) (k : A -> M num W B) : M num W B :=
  fun w =>
    match m w with
    | (Ret a, w1, t1) =>
        match k a w1 with
        | (r, w2, t2) => (r, w2, t1 ++ t2)
        end
    | (Raise e, w1, t1) => (Raise e, w1, t1)
    end.

Definition lift {A : Type} (r : result A) : M num W A :=
  fun w => (r, w, []).

(** [try: body except ...: handler]: [handler e] is the first clause
    whose class test accepts [e], if there is one. *)
Definition try_except {A : Type} (body : M num W A)
    (handler : exn -> option (M num W A)) : M num W A :=
  fun w =>
    match body w with
    | (Ret a, w1, t1) => (Ret a, w1, t1)
    | (Raise e, w1, t1) =>
        match handler e with
        | Some h =>
            match h w1 with
            | (r, w2, t2) => (r, w2, t1 ++ t2)
            end
        | None => (Raise e, w1, t1)
        end
    end.

Definition log (level : log_level) (msg : string) : M num W unit :=
  fun w => (Ret tt, w, [EvLog level msg]).

Definition call_time : M num W num :=
  fun w => let '(t, w') := time_time w in (Ret t, w', [EvClock t]).

Definition call_now : M num W (string * string) :=
  fun w => let '(s, w') := datetime_now w in (Ret s, w', [EvNow (fst s) (snd s)]).

Definition call_is_dir (p : Path) : M num W bool :=
  fun w => (Ret (path_is_dir p w), w, []).

Definition call_exists (p : Path) : M num W bool :=
  fun w => (Ret (path_exists p w), w, []).

Definition call_glob (parent : Path) (pattern : string) : M num W (list Path) :=
  fun w => (Ret (path_glob parent pattern w), w, []).

(** [p.is_dir()], [parent.glob(pattern)] and [p.exists()] as calls
    that may raise: the exception if the query raises one, its answer
    otherwise. *)
Definition query_is_dir (p : Path) : M num W bool :=
  fun w =>
    match path_is_dir_error p w with
    | Some e => (Raise e, w, [])
    | None => (Ret (path_is_dir p w), w, [])
    end.

Definition query_glob (parent : Path) (pattern : string) : M num W (list Path) :=
  fun w =>
    match path_glob_error parent pattern w with
    | Some e => (Raise e, w, [])
    | None => (Ret (path_glob parent pattern w), w, [])
    end.

Definition query_exists (p : Path) : M num W bool :=
  fun w =>
    match path_exists_error p w with
    | Some e => (Raise e, w, [])
    | None => (Ret (path_exists p w), w, [])
    end.

Definition call_rename (src dst : Path) : M num W unit :=
  fun w => let '(r, w') := path_rename src dst w in (r, w', [EvRename src dst]).

Definition call_run (command : list string) : M num W string :=
  fun w => let '(r, w') := subprocess_run command w in (r, w', [EvRun command]).

Definition call_open (file : Path) : M num W unit :=
  fun w => let '(r, w') := open_rb file w in (r, w', [EvOpen file]).

Definition call_post (url : string) (data : payload num) (files : document)
    (timeout : json num) : M num W response :=
  fun w =>
    let '(r, w') := requests_post url data files timeout w in
    (r, w', [EvPost url data files timeout r]).

Definition call_sleep (seconds : Z) : M num W unit :=
  fun w => (Ret tt, time_sleep seconds w, [EvSleep seconds]).

End Effects.

Notation "x <- m ;; k" := (bind m (fun x => k))
  (at level 61, m at next level, right associativity).
Notation "m ;;; k" := (bind m (fun _ => k))
  (at level 61, right associativity).

(* ================================================================ *)
(** * 2. RuntimeManager *)
(* ================================================================ *)

Section Program.
Context {num W : Type} {NUM : PyNum num} {OSI : OS num W}.

Record RuntimeManager : Type := {
  start_time : num;
  max_seconds : json num;
  time_exceeded : bool
}.

(** [RuntimeManager.__init__]. *)
Definition RuntimeManager_init (start : num) (config : json num)
  : result RuntimeManager :=
  match dict_get config "runtime" (JDict []) with
  | Raise e => Raise e
  | Ret runtime =>
      match dict_get runtime "max_execution_seconds" (JNum (num_of_Z 3300)) with
      | Raise e => Raise e
      | Ret m =>
          Ret {| start_time := start; max_seconds := m; time_exceeded := false |}
      end
  end.

Definition set_time_exceeded (self : RuntimeManager) : RuntimeManager :=
  {| start_time := start_time self;
     max_seconds := max_seconds self;
     time_exceeded := true |}.

(** [RuntimeManager.is_time_exceeded]: the answer and the object
    after the call. *)
Definition is_time_exceeded (self : RuntimeManager)
  : M num W (bool * RuntimeManager) :=
  if time_exceeded self then ret (true, self)
  else
    now <- call_time ;;
    let elapsed_time := num_sub now (start_time self) in
    over <- lift (py_gt elapsed_time (max_seconds self)) ;;
    if (over : bool) then
      log WARNING
        "Execution time limit of {self.max_seconds} seconds reached. Stopping operations." ;;;
      ret (true, set_time_exceeded self)
    else ret (false, self).

(* ================================================================ *)
(** * 3. Utility functions: [create_multivolume_archive] *)
(* ================================================================ *)

Definition str_of_Z (z : Z) : string :=
  NilZero.string_of_int (Z.to_int z).

Definition is_empty {A : Type} (xs : list A) : bool :=
  match xs with [] => true | _ :: _ => false end.

(** The [try] statement around [subprocess.run]: [Some l] when a
    handler executed [return l], [None] when control falls through. *)
Definition run_7z (command : list string) : M num W (option (list Path)) :=
  try_except
    (process_stdout <- call_run command ;;
     log INFO "7-Zip process completed successfully." ;;;
     log DEBUG "7-Zip output:\n{process.stdout}" ;;;
     ret None)
    (fun e =>
       if is_FileNotFoundError e then
         Some (log CRITICAL
                 "7-Zip command ('7z') not found. Please ensure 7-Zip is installed and in your system's PATH." ;;;
               ret (Some []))
       else if is_CalledProcessError e then
         Some (log ERROR "7-Zip failed with exit code {e.returncode}.\nStderr: {e.stderr}" ;;;
               ret (Some []))
       else if is_Exception e then
         Some (log ERROR "An unexpected error occurred during 7-Zip execution: {e}" ;;;
               ret (Some []))
       else None).

(** The argument list handed to [subprocess.run]. *)
Definition command_7z (chunk_size_mb : Z) (archive_output_path source_path : Path)
  : list string :=
  ["7z"; "a"; "-t7z"; "-m0=lzma2"; "-mx=9";
   ("-v" ++ str_of_Z chunk_size_mb ++ "m")%string;
   archive_output_path;
   source_path].

Definition create_multivolume_archive
    (directory_to_zip archive_output_path : Path) (chunk_size_mb : Z)
  : M num W (list Path) :=
  is_dir <- query_is_dir directory_to_zip ;;
  if negb is_dir then
    log ERROR "Cannot zip '{directory_to_zip}' as it is not a valid directory." ;;;
    ret []
  else
    (* [directory_to_zip / '.'] is [directory_to_zip]: pathlib drops
       the component [.] *)
    let source_path := directory_to_zip in
    let command := command_7z chunk_size_mb archive_output_path source_path in
    log INFO "Executing 7-Zip command for maximum compression .7z archive..." ;;;
    log DEBUG "Command: {' '.join(command)}" ;;;
    returned <- run_7z command ;;
    match returned with
    | Some l => ret l
    | None =>
        found <- query_glob (path_parent archive_output_path)
                   (path_name archive_output_path ++ ".*")%string ;;
        let archive_parts := sorted found in
        if is_empty archive_parts then
          there <- query_exists archive_output_path ;;
          if (there : bool) then
            log INFO "Archive was created as a single file (smaller than chunk size)." ;;;
            ret [archive_output_path]
          else
            log ERROR "Could not find any archive parts created by 7-Zip." ;;;
            ret []
        else
          log INFO "Found {len(archive_parts)} archive parts created by 7-Zip." ;;;
          ret archive_parts
    end.

(* ================================================================ *)
(** * 4. TelegramPoster *)
(* ================================================================ *)

Record TelegramPoster : Type := {
  poster_config : json num;
  bot_token : json num;
  channel_id : json num;
  api_url : string
}.

(** [response.raise_for_status()]: client and server error codes
    raise [HTTPError], a [RequestException] that carries the
    response. *)
Definition raise_for_status (r : response) : M num W unit :=
  if (400 <=? status_code r)%Z && (status_code r <? 600)%Z
  then raise (RequestException "HTTPError" (Some r))
  else ret tt.

Definition send_document (self : TelegramPoster) (file_path : Path) (caption : string)
  : M num W bool :=
  there <- call_exists file_path ;;
  if negb there then
    log ERROR "Document to send not found at: {file_path}" ;;;
    ret false
  else
    let escaped_caption := escape_markdown_v2 caption in
    let send_doc_url := (api_url self ++ "/sendDocument")%string in
    let data :=
      {| chat_id := channel_id self;
         caption := escaped_caption;
         parse_mode := "MarkdownV2" |} in
    log INFO "Uploading '{file_path.name}' to channel {self.channel_id}..." ;;;
    try_except
      (call_open file_path ;;;
       let files :=
         {| doc_name := path_name file_path;
            doc_file := file_path;
            doc_mime := "application/x-7z-compressed" |} in
       runtime <- lift (dict_get (poster_config self) "runtime" (JDict [])) ;;
       timeout <- lift (dict_get runtime "request_timeout" (JNum (num_of_Z 120))) ;;
       resp <- call_post send_doc_url data files timeout ;;
       raise_for_status resp ;;;
       log INFO "Successfully sent document: {file_path.name}" ;;;
       ret true)
      (fun e =>
         match e with
         | RequestException _ r =>
             Some (log ERROR "Error sending document: {e}" ;;;
                   match r with
                   | Some _ => log ERROR "Telegram API response: {e.response.text}"
                   | None => ret tt
                   end ;;;
                   ret false)
         | _ => None
         end).

(* ================================================================ *)
(** * 5. Main execution (from the archive onwards) *)
(* ================================================================ *)

Definition newline : string := String (ascii_of_nat 10) EmptyString.

(** Step 4: renaming of a single-part archive. *)
Definition rename_single_part (archive_chunks : list Path) (archive_output_path : Path)
  : M num W (list Path) :=
  if Nat.eqb (length archive_chunks) 1
     && PyStr.endswith (path_name (hd EmptyString archive_chunks)) ".001"
  then
    let single_part := hd EmptyString archive_chunks in
    let target_path := archive_output_path in
    log INFO "Only one archive part was created. Renaming '{single_part.name}' to '{target_path.name}'." ;;;
    try_except
      (call_rename single_part target_path ;;;
       ret [target_path])
      (fun e =>
         if is_OSError e then
           Some (log ERROR "Failed to rename single archive part: {e}. Proceeding with '.001' name." ;;;
                 ret archive_chunks)
         else None)
  else ret archive_chunks.

(** Step 5: the caption, from the two configured texts and the two
    formatted timestamps. *)
Definition full_caption (base_text jalali_str utc_str channel_handle : string) : string :=
  let full_caption_parts :=
    [base_text;
     (newline ++ "Latest Update: `" ++ jalali_str ++ " | " ++ utc_str ++ " UTC`")%string;
     (newline ++ channel_handle)%string] in
  PyStr.join newline (filter PyStr.truthy full_caption_parts).

(** The caption of the part with zero-based index [i]. *)
Definition current_caption (i total_parts : nat)
    (full_caption output_archive_basename : string) : string :=
  let part_num := i + 1 in
  if Nat.eqb i 0 then
    if Nat.ltb 1 total_parts
    then (full_caption ++ " (Part " ++ PyStr.str_of_nat part_num ++ "/"
            ++ PyStr.str_of_nat total_parts ++ ")")%string
    else full_caption
  else (output_archive_basename ++ " (Part " ++ PyStr.str_of_nat part_num ++ "/"
          ++ PyStr.str_of_nat total_parts ++ ")")%string.

(** Step 6: [for i, chunk_path in enumerate(archive_chunks)], entered
    at index [i] with the parts still to visit. *)
Fixpoint upload_loop (poster : TelegramPoster) (full_caption output_archive_basename : string)
    (total_parts : nat) (i : nat) (chunks : list Path)
    (runtime_manager : RuntimeManager) : M num W RuntimeManager :=
  match chunks with
  | [] => ret runtime_manager
  | chunk_path :: rest =>
      checked <- is_time_exceeded runtime_manager ;;
      let '(exceeded, runtime_manager) := checked in
      if (exceeded : bool) then
        log WARNING "Stopping file upload due to execution time limit." ;;;
        ret runtime_manager
      else
        let part_num := i + 1 in
        let caption := current_caption i total_parts full_caption output_archive_basename in
        sent <- send_document poster chunk_path caption ;;
        if negb sent then
          log ERROR "Failed to send chunk: {chunk_path.name}. Aborting remaining uploads." ;;;
          ret runtime_manager
        else
          (if Nat.ltb part_num total_parts then
             log INFO "Waiting 3 seconds before sending next part..." ;;;
             call_sleep 3
           else ret tt) ;;;
          upload_loop poster full_caption output_archive_basename total_parts
            (S i) rest runtime_manager
  end.

(** Steps 3 to 6 of [main].  The values read from the configuration
    ([archive_name], [chunk_size_mb], [telegram_caption],
    [channel_handle_id]) and the paths computed before are arguments. *)
Definition publish (runtime_manager : RuntimeManager) (poster : TelegramPoster)
    (source_dir archive_output_path : Path) (chunk_size_mb : Z)
    (output_archive_basename base_text channel_handle : string)
  : M num W RuntimeManager :=
  archive_chunks <- create_multivolume_archive source_dir archive_output_path chunk_size_mb ;;
  if is_empty archive_chunks then
    log ERROR "Aborting workflow due to archive creation failure." ;;;
    ret runtime_manager
  else
    archive_chunks <- rename_single_part archive_chunks archive_output_path ;;
    log INFO "Generating dynamic caption with timestamps..." ;;;
    stamps <- call_now ;;
    let utc_str := fst stamps in
    let jalali_str := snd stamps in
    let caption := full_caption base_text jalali_str utc_str channel_handle in
    let total_parts := length archive_chunks in
    upload_loop poster caption output_archive_basename total_parts 0
      archive_chunks runtime_manager.

End Program.

(* ================================================================ *)
(** * A scripted world, for running the model on concrete inputs *)
(* ================================================================ *)

Module Scripted.

(** Clock readings are whole seconds; the answers of the clock and of
    the network are consumed from scripts, and the file system is a
    list of directories and a list of files. *)
Record world : Type := {
  clock : list Z;
  dirs : list Path;
  files : list Path;
  run_outcome : result string;
  run_creates : list Path;
  rename_outcome : result unit;
  posts : list (result response)
}.

#[global] Instance PyNum_Z : PyNum Z := {
  num_of_Z := fun z => z;
  num_sub := Z.sub;
  num_gtb := Z.gtb
}.

Definition mem (p : Path) (ps : list Path) : bool :=
  existsb (String.eqb p) ps.

Definition tick (w : world) : Z * world :=
  match clock w with
  | [] => (0%Z, w)
  | t :: ts =>
      (t, {| clock := ts; dirs := dirs w; files := files w;
             run_outcome := run_outcome w; run_creates := run_creates w;
             rename_outcome := rename_outcome w; posts := posts w |})
  end.

(** A pattern [name.*] selects the files of the directory whose name
    starts with [name.]. *)
Definition glob (parent : Path) (pattern : string) (w : world) : list Path :=
  filter (fun f =>
            String.eqb (path_parent f) parent
            && String.prefix (substring 0 (String.length pattern - 1) pattern) (path_name f))
         (files w).

Definition rename (src dst : Path) (w : world) : result unit * world :=
  match rename_outcome w with
  | Ret _ =>
      (Ret tt,
       {| clock := clock w; dirs := dirs w;
          files := dst :: filter (fun f => negb (String.eqb f src)) (files w);
          run_outcome := run_outcome w; run_creates := run_creates w;
          rename_outcome := rename_outcome w; posts := posts w |})
  | Raise e => (Raise e, w)
  end.

Definition run (command : list string) (w : world) : result string * world :=
  match run_outcome w with
  | Ret out =>
      (Ret out,
       {| clock := clock w; dirs := dirs w;
          files := run_creates w ++ files w;
          run_outcome := run_outcome w; run_creates := run_creates w;
          rename_outcome := rename_outcome w; posts := posts w |})
  | Raise e => (Raise e, w)
  end.

Definition post (w : world) : result response * world :=
  match posts w with
  | [] => (Ret {| status_code := 200; response_text := "" |}, w)
  | r :: rs =>
      (r, {| clock := clock w; dirs := dirs w; files := files w;
             run_outcome := run_outcome w; run_creates := run_creates w;
             rename_outcome := rename_outcome w; posts := rs |})
  end.

#[global] Instance OS_scripted : OS Z world := {
  time_time := tick;
  datetime_now := fun w => (("2025-07-25 10:00:00", "1404/05/03 13:30:00"), w);
  path_is_dir := fun p w => mem p (dirs w);
  path_exists := fun p w => mem p (dirs w) || mem p (files w);
  path_glob := glob;
  path_rename := rename;
  subprocess_run := run;
  open_rb := fun _ w => (Ret tt, w);
  requests_post := fun _ _ _ _ w => post w;
  time_sleep := fun _ w => w;
  path_is_dir_error := fun _ _ => None;
  path_glob_error := fun _ _ _ => None;
  path_exists_error := fun _ _ => None
}.

Definition ok_response : result response :=
  Ret {| status_code := 200; response_text := "{}" |}.

Definition error_response : result response :=
  Ret {| status_code := 429; response_text := "Too Many Requests" |}.

Definition poster : TelegramPoster (num := Z) := {|
  poster_config := JDict [];
  bot_token := JStr "TOKEN";
  channel_id := JStr "@channel";
  api_url := "https://api.telegram.org/botTOKEN"
|}.

Definition manager (start ceiling : Z) : RuntimeManager (num := Z) := {|
  start_time := start;
  max_seconds := JNum ceiling;
  time_exceeded := false
|}.

(** A world with three archive parts on disk. *)
Definition three_parts : list Path :=
  ["/tmp/w/archive.7z.001"; "/tmp/w/archive.7z.002"; "/tmp/w/archive.7z.003"].

Definition world0 (readings : list Z) (answers : list (result response)) : world := {|
  clock := readings;
  dirs := ["/tmp/w"; "/tmp/w/data"];
  files := three_parts;
  run_outcome := Ret "Everything is Ok";
  run_creates := [];
  rename_outcome := Ret tt;
  posts := answers
|}.

(** The upload loop over the three parts. *)
Definition run_with (readings : list Z) (answers : list (result response))
    (start ceiling : Z) : result RuntimeManager * world * list (event Z) :=
  upload_loop poster "Daily build" "archive" 3 0 three_parts
    (manager start ceiling) (world0 readings answers).

(** A world before compression: what the compressor answers, the
    files it creates and what a rename answers. *)
Definition world_7z (compressor : result string) (created : list Path)
    (renaming : result unit) : world := {|
  clock := [];
  dirs := ["/tmp/w"; "/tmp/w/data"];
  files := [];
  run_outcome := compressor;
  run_creates := created;
  rename_outcome := renaming;
  posts := []
|}.

End Scripted.

(* ================================================================ *)
(** * Observations on a trace *)
(* ================================================================ *)

Section Observations.
Context {num : Type}.

(** An HTTP request is answered well when a response arrives whose
    status [raise_for_status] accepts. *)
Definition delivered_outcome (r : result response) : bool :=
  match r with
  | Ret resp => negb ((400 <=? status_code resp)%Z && (status_code resp <? 600)%Z)
  | Raise _ => false
  end.

(** The uploads of a trace: file, caption sent, and whether the
    transport delivered it. *)
Fixpoint uploads (tr : list (event num)) : list (Path * string * bool) :=
  match tr with
  | [] => []
  | EvPost _ data files _ outcome :: tr' =>
      (doc_file files, caption data, delivered_outcome outcome) :: uploads tr'
  | _ :: tr' => uploads tr'
  end.

(** The parts a trace shows as delivered. *)
Definition delivered_parts (tr : list (event num)) : list Path :=
  map (fun u => fst (fst u)) (filter (fun u => snd u) (uploads tr)).

Definition is_log (e : event num) : bool :=
  match e with EvLog _ _ => true | _ => false end.

End Observations.

(* ================================================================ *)
(** * The delivery protocol, as a checker of traces *)
(* ================================================================ *)

Section Protocol.
Context {num W : Type} {NUM : PyNum num} {OSI : OS num W}.

(** Whether a clock reading [t] is beyond the budget of the manager;
    a comparison that raises ends the run as well. *)
Definition over_budget (rm : RuntimeManager) (t : num) : bool :=
  match py_gt (num_sub t (start_time rm)) (max_seconds rm) with
  | Ret over => over
  | Raise _ => true
  end.

(** [Idle]: between two parts.  [Cleared]: the clock was read and the
    budget is not exhausted.  [Stopped]: no further part. *)
Inductive phase : Type := Idle | Cleared | Stopped.

Definition protocol_step (rm : RuntimeManager) (s : phase) (e : event num)
  : option phase :=
  match e, s with
  | EvLog _ _, _ => Some s
  | EvClock t, Idle => Some (if over_budget rm t then Stopped else Cleared)
  | EvOpen _, Cleared => Some Cleared
  | EvPost _ _ _ _ outcome, Cleared =>
      Some (if delivered_outcome outcome then Idle else Stopped)
  | EvSleep _, Idle => Some Idle
  | _, _ => None
  end.

Fixpoint protocol_run (rm : RuntimeManager) (s : phase) (tr : list (event num))
  : option phase :=
  match tr with
  | [] => Some s
  | e :: tr' =>
      match protocol_step rm s e with
      | Some s' => protocol_run rm s' tr'
      | None => None
      end
  end.

(** The uploads [ups] visit the parts [chunks] in order from index
    [i], each with the caption of its index, and nothing follows an
    upload that was not delivered. *)
Fixpoint uploads_follow (total_parts : nat) (full_caption output_archive_basename : string)
    (i : nat) (chunks : list Path) (ups : list (Path * string * bool)) : Prop :=
  match ups with
  | [] => True
  | (p, c, ok) :: ups' =>
      match chunks with
      | [] => False
      | q :: rest =>
          p = q
          /\ c = escape_markdown_v2
                   (current_caption i total_parts full_caption output_archive_basename)
          /\ (if ok
              then uploads_follow total_parts full_caption output_archive_basename
                     (S i) rest ups'
              else ups' = [])
      end
  end.

(** An event after which the loop delivers nothing more: a clock
    reading beyond the budget, or a request that was not delivered. *)
Definition stops (rm : RuntimeManager) (e : event num) : bool :=
  match e with
  | EvClock t => over_budget rm t
  | EvPost _ _ _ _ outcome => negb (delivered_outcome outcome)
  | _ => false
  end.

(** What a trace holds after its first stopping event. *)
Fixpoint after_stop (rm : RuntimeManager) (tr : list (event num)) : list (event num) :=
  match tr with
  | [] => []
  | e :: tr' => if stops rm e then tr' else after_stop rm tr'
  end.

(** Successive calls of [is_time_exceeded] on one manager, each in a
    world of its own (the clock between two calls is not constrained). *)
Fixpoint checks (rm : RuntimeManager) (ws : list W) : list (result bool) :=
  match ws with
  | [] => []
  | w :: ws' =>
      match is_time_exceeded rm w with
      | (Ret (answer, rm'), _, _) => Ret answer :: checks rm' ws'
      | (Raise e, _, _) => [Raise e]
      end
  end.

End Protocol.

(** The caption as the specification words it: the non-empty ones of
    the template, the timestamp line and the channel handle, joined
    with single newlines. *)
Definition spec_full_caption (base_text jalali_str utc_str channel_handle : string)
  : string :=
  PyStr.join newline
    (filter PyStr.truthy
       [base_text;
        ("Latest Update: `" ++ jalali_str ++ " | " ++ utc_str ++ " UTC`")%string;
        channel_handle]).

(* ================================================================ *)
(** * Further Python primitives *)
(* ================================================================ *)

(** What the script needs of a Python value besides the arithmetic of
    [PyNum]: whether a number is truthy (non-zero), and the text that
    [str()] and f-strings give for a value that is not a [str]. *)
Class PyValue (num : Type) : Type := {
  num_truthy : num -> bool;
  format_other : json num -> string
}.

(** Truthiness of a configuration value. *)
Definition json_truthy {num : Type} `{PyValue num} (v : json num) : bool :=
  match v with
  | JNull => false
  | JBool b => b
  | JNum n => num_truthy n
  | JStr s => PyStr.truthy s
  | JList items => negb (is_empty items)
  | JDict entries => negb (is_empty entries)
  end.

(** [f"{v}"]: a [str] is inserted as it is. *)
Definition py_str {num : Type} `{PyValue num} (v : json num) : string :=
  match v with
  | JStr s => s
  | _ => format_other v
  end.

(** [d[key]]: a missing key raises [KeyError] (carried by
    [OtherException]), a value that is not a dict cannot be indexed
    with a string. *)
Definition dict_index {num : Type} (d : json num) (key : string) : result (json num) :=
  match d with
  | JDict entries =>
      match assoc key entries with
      | Some v => Ret v
      | None => Raise (OtherException "KeyError")
      end
  | _ => Raise (TypeError "indices must be integers or object is not subscriptable")
  end.

(** The entries of a dict after [d[key] = v]: the value of an
    existing key is replaced in place, a new key goes last. *)
Fixpoint assoc_set {A : Type} (key : string) (v : A) (entries : list (string * A))
  : list (string * A) :=
  match entries with
  | [] => [(key, v)]
  | (k, old) :: rest =>
      if String.eqb k key then (k, v) :: rest
      else (k, old) :: assoc_set key v rest
  end.

(** [config[section][key] = v], the inner dict being updated in place. *)
Definition set_nested {num : Type} (config : json num) (section key : string)
    (v : json num) : result (json num) :=
  match config with
  | JDict entries =>
      match assoc section entries with
      | Some (JDict inner) =>
          Ret (JDict (assoc_set section (JDict (assoc_set key v inner)) entries))
      | Some _ => Raise (TypeError "object does not support item assignment")
      | None => Raise (OtherException "KeyError")
      end
  | _ => Raise (TypeError "indices must be integers or object is not subscriptable")
  end.

(** [text] without the occurrences of [c]. *)
Fixpoint remove_char (c : ascii) (text : string) : string :=
  match text with
  | EmptyString => EmptyString
  | String d rest =>
      if Ascii.eqb d c then remove_char c rest else String d (remove_char c rest)
  end.

(** Whether a text holds a character of the escape set. *)
Fixpoint mentions_escape_set (text : string) : bool :=
  match text with
  | EmptyString => false
  | String c rest => in_escape_set c || mentions_escape_set rest
  end.

(* ================================================================ *)
(** * 2. ConfigManager *)
(* ================================================================ *)

(** How a call that may execute [sys.exit] ends. *)
Inductive outcome (A : Type) : Type :=
| Done (a : A)
| SysExit (code : Z)
| Raised (e : exn).
Arguments Done {A} a.
Arguments SysExit {A} code.
Arguments Raised {A} e.

(** What [json.load] on the opened file gives. *)
Inductive load_result (num : Type) : Type :=
| Parsed (config : json num)
| JSONDecodeError (msg : string)
| LoadRaised (e : exn).
Arguments Parsed {num} config.
Arguments JSONDecodeError {num} msg.
Arguments LoadRaised {num} e.

(** The process environment and the content of files, beside [OS]. *)
Class Host (num W : Type) : Type := {
  os_environ : W -> list (string * string);
  json_load : Path -> W -> load_result num * W
}.

Section Config.
Context {num W : Type} {NUM : PyNum num} {VAL : PyValue num}
        {OSI : OS num W} {HOST : Host num W}.

(** One [if value: self.config['telegram'][key] = value] with its log
    record, after the steps before it. *)
Definition inject_one (value : option string) (key msg : string)
    (sofar : result (json num) * list (event num))
  : result (json num) * list (event num) :=
  match sofar with
  | (Raise e, evs) => (Raise e, evs)
  | (Ret config, evs) =>
      match value with
      | Some v =>
          if PyStr.truthy v then
            match set_nested config "telegram" key (JStr v) with
            | Ret config' => (Ret config', evs ++ [EvLog INFO msg])
            | Raise e => (Raise e, evs)
            end
          else (Ret config, evs)
      | None => (Ret config, evs)
      end
  end.

(** [ConfigManager._inject_environment_variables]. *)
Definition inject_environment_variables (environ : list (string * string))
    (config : json num) : result (json num) * list (event num) :=
  let bot_token := assoc "TELEGRAM_BOT_TOKEN" environ in
  let channel_id := assoc "TELEGRAM_CHANNEL_ID" environ in
  let channel_handle := assoc "TELEGRAM_CHANNEL_HANDLE" environ in
  inject_one channel_handle "channel_handle_id"
    "Loaded Telegram Channel Handle from environment variable."
    (inject_one channel_id "channel_id"
       "Loaded Telegram Channel ID from environment variable."
       (inject_one bot_token "bot_token"
          "Loaded Telegram Bot Token from environment variable."
          (Ret config, []))).

(** The value of a key of the telegram section after the injection:
    the environment variable when it is set and not empty, the value
    of the file otherwise. *)
Definition env_or (value : option string) (old : option (json num))
  : option (json num) :=
  match value with
  | Some v => if PyStr.truthy v then Some (JStr v) else old
  | None => old
  end.

(** Whether an environment variable is set and not empty. *)
Definition env_set (environ : list (string * string)) (name : string) : bool :=
  match assoc name environ with
  | Some v => PyStr.truthy v
  | None => false
  end.

(** [self.config.get('telegram', {}).get(key)]. *)
Definition telegram_get (config : json num) (key : string) : result (json num) :=
  match dict_get config "telegram" (JDict []) with
  | Raise e => Raise e
  | Ret telegram => dict_get telegram key JNull
  end.

(** [ConfigManager._validate_critical_configs]. *)
Definition validate_critical_configs (config : json num)
  : outcome unit * list (event num) :=
  match telegram_get config "bot_token" with
  | Raise e => (Raised e, [])
  | Ret token =>
      if negb (json_truthy token) then
        (SysExit 1,
         [EvLog CRITICAL
            "Telegram Bot Token is not configured. Please set the TELEGRAM_BOT_TOKEN environment variable/secret."])
      else
        match telegram_get config "channel_id" with
        | Raise e => (Raised e, [])
        | Ret channel =>
            if negb (json_truthy channel) then
              (SysExit 1,
               [EvLog CRITICAL
                  "Telegram Channel ID is not configured. Please set the TELEGRAM_CHANNEL_ID environment variable/secret."])
            else (Done tt, [])
        end
  end.

(** [ConfigManager.load]. *)
Definition ConfigManager_load (config_path : Path)
  : W -> outcome (json num) * W * list (event num) :=
  fun w =>
    let stage := EvLog INFO "--- Stage: Configuration Loading ---" in
    if negb (path_exists config_path w) then
      (SysExit 1, w,
       [stage;
        EvLog CRITICAL "Configuration file not found at '{self.config_path}'. Aborting."])
    else
      match json_load config_path w with
      | (JSONDecodeError _, w1) =>
          (SysExit 1, w1,
           [stage; EvOpen config_path;
            EvLog CRITICAL "Error parsing '{self.config_path}': {e}. Aborting."])
      | (LoadRaised e, w1) => (Raised e, w1, [stage; EvOpen config_path])
      | (Parsed config, w1) =>
          match inject_environment_variables (os_environ w1) config with
          | (Raise e, evs) => (Raised e, w1, [stage; EvOpen config_path] ++ evs)
          | (Ret config', evs) =>
              match validate_critical_configs config' with
              | (Done _, evs') =>
                  (Done config', w1,
                   [stage; EvOpen config_path] ++ evs ++ evs'
                   ++ [EvLog INFO "Configuration loaded successfully."])
              | (SysExit code, evs') =>
                  (SysExit code, w1, [stage; EvOpen config_path] ++ evs ++ evs')
              | (Raised e, evs') =>
                  (Raised e, w1, [stage; EvOpen config_path] ++ evs ++ evs')
              end
          end
      end.

(* ================================================================ *)
(** * 4. FolderFetcher and [TelegramPoster.__init__] *)
(* ================================================================ *)

Record FolderFetcher : Type := {
  repo_config : json num;
  repo_url : json num;
  branch : json num
}.

(** [FolderFetcher.__init__]. *)
Definition FolderFetcher_init (config : json num) : result FolderFetcher :=
  match dict_get config "source_repo" (JDict []) with
  | Raise e => Raise e
  | Ret section =>
      match dict_get section "url" JNull with
      | Raise e => Raise e
      | Ret url =>
          match dict_get section "branch" (JStr "main") with
          | Raise e => Raise e
          | Ret b => Ret {| repo_config := section; repo_url := url; branch := b |}
          end
      end
  end.

(** The strings of an argument list, if all its items are strings. *)
Fixpoint all_str (args : list (json num)) : option (list string) :=
  match args with
  | [] => Some []
  | JStr s :: rest =>
      match all_str rest with
      | Some ss => Some (s :: ss)
      | None => None
      end
  | _ :: rest => None
  end.

(** [subprocess.run(args, check=True, ...)]: an item that is not a
    string is refused with [TypeError] before any process is started. *)
Definition run_args (args : list (json num)) : M num W string :=
  match all_str args with
  | Some command => call_run command
  | None => raise (TypeError "expected str, bytes or os.PathLike object")
  end.

Definition git_command (self : FolderFetcher) (temp_dir : Path) : list (json num) :=
  [JStr "git"; JStr "clone"; JStr "--depth"; JStr "1"; JStr "--branch";
   branch self; repo_url self; JStr temp_dir].

(** [FolderFetcher.clone_repo]. *)
Definition clone_repo (self : FolderFetcher) (temp_dir : Path) : M num W bool :=
  log INFO "--- Stage: Data Loading (Git Repo) ---" ;;;
  if negb (json_truthy (repo_url self)) then
    log ERROR "`source_repo.url` is not defined in config." ;;;
    ret false
  else
    log INFO "Cloning repo '{self.repo_url}' (branch: {self.branch}) into '{temp_dir}'" ;;;
    try_except
      (run_args (git_command self temp_dir) ;;;
       log INFO "Git clone successful." ;;;
       ret true)
      (fun e =>
         if is_FileNotFoundError e then
           Some (log CRITICAL
                   "Git command ('git') not found. Please ensure Git is installed and in your system's PATH." ;;;
                 ret false)
         else if is_CalledProcessError e then
           Some (log ERROR "Git clone failed with exit code {e.returncode}.\nStderr: {e.stderr}" ;;;
                 ret false)
         else if is_Exception e then
           Some (log ERROR "An unexpected error occurred during git clone: {e}" ;;;
                 ret false)
         else None).

(** [TelegramPoster.__init__]. *)
Definition TelegramPoster_init (config : json num) : result TelegramPoster :=
  match dict_index config "telegram" with
  | Raise e => Raise e
  | Ret telegram =>
      match dict_index telegram "bot_token" with
      | Raise e => Raise e
      | Ret token =>
          match dict_index config "telegram" with
          | Raise e => Raise e
          | Ret telegram' =>
              match dict_index telegram' "channel_id" with
              | Raise e => Raise e
              | Ret channel =>
                  Ret {| poster_config := config;
                         bot_token := token;
                         channel_id := channel;
                         api_url := ("https://api.telegram.org/bot" ++ py_str token)%string |}
              end
          end
      end
  end.

(* ================================================================ *)
(** * 5. Main execution: the body of the [with] block *)
(* ================================================================ *)

(** Lines 342 to 430 of [main], for a configuration whose values have
    the types the code uses them at: the folder name is a string or is
    missing, and the archive path, the chunk size, the archive name
    and the two caption texts are the values lines 361 to 365 and 396
    to 397 compute.  [fetcher] and [runtime_manager] are the objects
    built at lines 341 and 334, [poster_config] is the configuration
    handed to [TelegramPoster] at line 408, and [source_dir name] is
    [temp_dir / name]. *)
Definition pipeline (fetcher : FolderFetcher) (runtime_manager : RuntimeManager)
    (poster_config : json num) (temp_dir : Path)
    (folder_to_zip_name : option string) (source_dir : string -> Path)
    (archive_output_path : Path) (chunk_size_mb : Z)
    (output_archive_basename base_text channel_handle : string)
  : M num W unit :=
  cloned <- clone_repo fetcher temp_dir ;;
  if negb cloned then
    log ERROR "Aborting workflow due to clone failure." ;;;
    ret tt
  else
    match folder_to_zip_name with
    | None =>
        log ERROR "`source_repo.folder_to_zip` not specified in config. Aborting." ;;;
        ret tt
    | Some name =>
        if negb (PyStr.truthy name) then
          log ERROR "`source_repo.folder_to_zip` not specified in config. Aborting." ;;;
          ret tt
        else
          is_dir <- call_is_dir (source_dir name) ;;
          if negb is_dir then
            log ERROR
              "The specified folder to zip '{folder_to_zip_name}' does not exist in the cloned repository. Aborting." ;;;
            ret tt
          else
            archive_chunks <- create_multivolume_archive (source_dir name)
                                archive_output_path chunk_size_mb ;;
            if is_empty archive_chunks then
              log ERROR "Aborting workflow due to archive creation failure." ;;;
              ret tt
            else
              archive_chunks <- rename_single_part archive_chunks archive_output_path ;;
              log INFO "Generating dynamic caption with timestamps..." ;;;
              stamps <- call_now ;;
              let utc_str := fst stamps in
              let jalali_str := snd stamps in
              let caption := full_caption base_text jalali_str utc_str channel_handle in
              poster <- lift (TelegramPoster_init poster_config) ;;
              let total_parts := length archive_chunks in
              upload_loop poster caption output_archive_basename total_parts 0
                archive_chunks runtime_manager ;;;
              ret tt
    end.

End Config.

(* ================================================================ *)
(** * Further observations on traces *)
(* ================================================================ *)

Section MoreObservations.
Context {num W : Type} {NUM : PyNum num} {OSI : OS num W}.

Definition is_sleep (e : event num) : bool :=
  match e with EvSleep _ => true | _ => false end.

Definition is_clock (e : event num) : bool :=
  match e with EvClock _ => true | _ => false end.

Definition is_run (e : event num) : bool :=
  match e with EvRun _ => true | _ => false end.

Definition is_warning (e : event num) : bool :=
  match e with EvLog WARNING _ => true | _ => false end.

(** Events that reach outside the process after the clone: running a
    program, renaming, opening, posting, sleeping, reading the clock. *)
Definition is_external (e : event num) : bool :=
  match e with EvLog _ _ => false | _ => true end.

(** A ceiling that is neither a number nor a boolean. *)
Definition not_comparable (v : json num) : Prop :=
  match v with
  | JNum _ | JBool _ => False
  | _ => True
  end.

Definition is_post (e : event num) : bool :=
  match e with EvPost _ _ _ _ _ => true | _ => false end.

(** [self.config.get('runtime', {}).get('request_timeout', 120)]. *)
Definition configured_timeout (self : TelegramPoster) : result (json num) :=
  match dict_get (poster_config self) "runtime" (JDict []) with
  | Raise e => Raise e
  | Ret runtime => dict_get runtime "request_timeout" (JNum (num_of_Z 120))
  end.

(** The request [send_document] builds for a file and a caption, with
    its answer. *)
Definition document_request (self : TelegramPoster) (file_path : Path) (text : string)
    (timeout : json num) (answer : result response) : event num :=
  EvPost (api_url self ++ "/sendDocument")%string
    {| chat_id := channel_id self;
       caption := escape_markdown_v2 text;
       parse_mode := "MarkdownV2" |}
    {| doc_name := path_name file_path;
       doc_file := file_path;
       doc_mime := "application/x-7z-compressed" |}
    timeout answer.

(** The order [sorted] arranges paths in. *)
Definition path_le (p q : Path) : Prop := String.leb p q = true.

(** The effects of successive calls of [is_time_exceeded] on one
    manager, each call in a world of its own. *)
Fixpoint check_traces (rm : RuntimeManager) (ws : list W) : list (event num) :=
  match ws with
  | [] => []
  | w :: ws' =>
      match is_time_exceeded rm w with
      | (Ret (_, rm'), _, tr) => tr ++ check_traces rm' ws'
      | (Raise _, _, tr) => tr
      end
  end.

End MoreObservations.

(** A world whose files exist but cannot be opened. *)
Module Locked.

#[global] Instance OS_locked : OS Z unit := {
  time_time := fun w => (0%Z, w);
  datetime_now := fun w => (("2025-07-25 10:00:00", "1404/05/03 13:30:00"), w);
  path_is_dir := fun _ _ => true;
  path_exists := fun _ _ => true;
  path_glob := fun _ _ _ => [];
  path_rename := fun _ _ w => (Raise (OSError "Permission denied"), w);
  subprocess_run := fun _ w => (Ret "", w);
  open_rb := fun _ w => (Raise (OSError "Permission denied"), w);
  requests_post := fun _ _ _ _ w => (Ret {| status_code := 200; response_text := "" |}, w);
  time_sleep := fun _ w => w;
  path_is_dir_error := fun _ _ => None;
  path_glob_error := fun _ _ _ => None;
  path_exists_error := fun _ _ => None
}.

End Locked.

(** A world in which the compressor succeeds and the glob refuses a
    pattern that holds [**] inside a path component, as
    [pathlib.Path.glob] does (it raises [ValueError], carried here by
    [OtherException]). *)
Module Strict.

Inductive world : Type := Ready.

Definition glob_error (pattern : string) : option exn :=
  match String.index 0 "**" pattern with
  | Some _ =>
      Some (OtherException
              "ValueError: Invalid pattern: '**' can only be an entire path component")
  | None => None
  end.

#[global] Instance OS_strict : OS Z world := {
  time_time := fun w => (0%Z, w);
  datetime_now := fun w => (("2025-07-25 10:00:00", "1404/05/03 13:30:00"), w);
  path_is_dir := fun _ _ => true;
  path_exists := fun _ _ => true;
  path_glob := fun _ _ _ => [];
  path_rename := fun _ _ w => (Ret tt, w);
  subprocess_run := fun _ w => (Ret "Everything is Ok", w);
  open_rb := fun _ w => (Ret tt, w);
  requests_post := fun _ _ _ _ w => (Ret {| status_code := 200; response_text := "" |}, w);
  time_sleep := fun _ w => w;
  path_is_dir_error := fun _ _ => None;
  path_glob_error := fun _ pattern _ => glob_error pattern;
  path_exists_error := fun _ _ => None
}.

End Strict.

(** A configuration file and an environment for the scripted world. *)
Module ScriptedHost.

#[global] Instance PyValue_Z : PyValue Z := {
  num_truthy := fun z => negb (Z.eqb z 0);
  format_other := fun _ => "?"
}.

Definition file_config : json Z :=
  JDict [("telegram", JDict [("bot_token", JStr "FILE-TOKEN"); ("channel_id", JStr "@file")]);
         ("source_repo", JDict [("url", JStr "https://example.org/repo.git");
                                ("folder_to_zip", JStr "data")])].

#[global] Instance Host_scripted : Host Z Scripted.world := {
  os_environ := fun _ => [("TELEGRAM_BOT_TOKEN", "ENV-TOKEN"); ("TELEGRAM_CHANNEL_ID", "")];
  json_load := fun _ w => (Parsed file_config, w)
}.

Definition world_with_config : Scripted.world := {|
  Scripted.clock := [];
  Scripted.dirs := ["data"];
  Scripted.files := ["data/preferences.json"];
  Scripted.run_outcome := Raise (CalledProcessError 128 "fatal: repository not found");
  Scripted.run_creates := [];
  Scripted.rename_outcome := Ret tt;
  Scripted.posts := []
|}.

Definition fetcher : FolderFetcher (num := Z) := {|
  repo_config := JDict [("url", JStr "https://example.org/repo.git");
                        ("folder_to_zip", JStr "data")];
  repo_url := JStr "https://example.org/repo.git";
  branch := JStr "main"
|}.

(** The body of [main] in a given world, with the folder [data] of
    the clone in [/tmp/w]. *)
Definition run_pipeline (w : Scripted.world)
  : result unit * Scripted.world * list (event Z) :=
  pipeline fetcher (Scripted.manager 0 3300) file_config "/tmp/w" (Some "data")
    (fun name => ("/tmp/w/" ++ name)%string) "/tmp/w/archive.7z" 15
    "archive" "Daily build" "@channel" w.

End ScriptedHost.

(* ================================================================ *)
(** * Properties of the string primitives *)
(* ================================================================ *)

Lemma string_app_assoc (a b c : string) :
  ((a ++ b) ++ c)%string = (a ++ b ++ c)%string.
Proof.
  induction a as [|x a IH]; simpl; [reflexivity | now rewrite IH].
Qed.

Lemma string_app_empty_r (a : string) : (a ++ "")%string = a.
Proof.
  induction a as [|x a IH]; simpl; [reflexivity | now rewrite IH].
Qed.

Lemma split_not_nil (text : string) (sep : ascii) : PyStr.split text sep <> [].
Proof.
  destruct text as [|c rest]; simpl; [discriminate|].
  destruct (Ascii.eqb c sep); [discriminate|].
  destruct (PyStr.split rest sep); discriminate.
Qed.

Lemma join_cons (sep p : string) (ps : list string) :
  ps <> [] -> PyStr.join sep (p :: ps) = (p ++ sep ++ PyStr.join sep ps)%string.
Proof.
  destruct ps; [congruence | reflexivity].
Qed.

(** Splitting and joining on the same character gives the text back. *)
Lemma join_split (text : string) (sep : ascii) :
  PyStr.join (String sep "") (PyStr.split text sep) = text.
Proof.
  induction text as [|c rest IH]; [reflexivity|].
  simpl PyStr.split.
  destruct (Ascii.eqb c sep) eqn:E.
  - apply Ascii.eqb_eq in E; subst c.
    rewrite join_cons by apply split_not_nil.
    simpl. now rewrite IH.
  - pose proof (split_not_nil rest sep) as Hne.
    destruct (PyStr.split rest sep) as [|p ps]; [congruence|].
    destruct ps as [|q qs]; simpl in *; now rewrite IH.
Qed.

(** No run produced by [split] contains the separator. *)
Lemma split_runs_free (text : string) (sep : ascii) :
  Forall (fun run => PyStr.count run sep = 0) (PyStr.split text sep).
Proof.
  induction text as [|c rest IH]; simpl.
  - constructor; [reflexivity | constructor].
  - destruct (Ascii.eqb c sep) eqn:E.
    + constructor; [reflexivity | exact IH].
    + destruct (PyStr.split rest sep) as [|p ps].
      * constructor; [simpl; now rewrite E | constructor].
      * inversion IH; subst. constructor; [simpl; rewrite E; assumption | assumption].
Qed.

Lemma split_length (text : string) (sep : ascii) :
  length (PyStr.split text sep) = S (PyStr.count text sep).
Proof.
  induction text as [|c rest IH]; [reflexivity|].
  simpl. destruct (Ascii.eqb c sep) eqn:E.
  - simpl. now rewrite IH.
  - pose proof (split_not_nil rest sep) as Hne.
    destruct (PyStr.split rest sep) as [|p ps]; [congruence|].
    simpl in *. exact IH.
Qed.

Lemma split_free (run : string) (sep : ascii) :
  PyStr.count run sep = 0 -> PyStr.split run sep = [run].
Proof.
  induction run as [|c rest IH]; [reflexivity|].
  simpl. destruct (Ascii.eqb c sep); [discriminate|].
  simpl. intros H. now rewrite IH.
Qed.

Lemma split_app_sep (run rest : string) (sep : ascii) :
  PyStr.count run sep = 0 ->
  PyStr.split (run ++ String sep rest) sep = run :: PyStr.split rest sep.
Proof.
  induction run as [|c run' IH]; simpl.
  - intros _. now rewrite Ascii.eqb_refl.
  - destruct (Ascii.eqb c sep); [discriminate|].
    simpl. intros H. now rewrite IH.
Qed.

(** [split] undoes [join] on separator-free runs: the runs of a text
    are determined by the text. *)
Lemma split_join (runs : list string) (sep : ascii) :
  runs <> [] ->
  Forall (fun run => PyStr.count run sep = 0) runs ->
  PyStr.split (PyStr.join (String sep "") runs) sep = runs.
Proof.
  induction runs as [|r rs IH]; [congruence|].
  intros _ HF. inversion HF as [|? ? Hr Hrs]; subst.
  destruct rs as [|q qs].
  - simpl. now apply split_free.
  - rewrite join_cons by discriminate.
    change (String sep "" ++ PyStr.join (String sep "") (q :: qs))%string
      with (String sep (PyStr.join (String sep "") (q :: qs))).
    rewrite split_app_sep by assumption.
    now rewrite IH by (discriminate || assumption).
Qed.

Lemma count_app (a b : string) (c : ascii) :
  PyStr.count (a ++ b) c = PyStr.count a c + PyStr.count b c.
Proof.
  induction a as [|x a IH]; simpl; [reflexivity | rewrite IH; lia].
Qed.

Lemma join_snoc (sep : string) (ps : list string) (p : string) :
  ps <> [] ->
  PyStr.join sep (ps ++ [p]) = (PyStr.join sep ps ++ sep ++ p)%string.
Proof.
  induction ps as [|q qs IH]; [congruence|].
  intros _. destruct qs as [|q' qs'].
  - reflexivity.
  - change ((q :: q' :: qs') ++ [p]) with (q :: ((q' :: qs') ++ [p])).
    rewrite join_cons by (simpl; discriminate).
    rewrite IH by discriminate.
    rewrite (join_cons sep q (q' :: qs')) by discriminate.
    now rewrite !string_app_assoc.
Qed.

(* ================================================================ *)
(** * Properties of [escape_markdown_v2] *)
(* ================================================================ *)

(** The pattern the script builds compiles to a character set. *)
Lemma escape_pattern_compiles :
  exists cls,
    Re.compile ("([" ++ Re.escape "_*[]()~>#+-=|{}.!" ++ "])")%string = Some cls
    /\ forall c, Re.class_matches cls c = in_escape_set c.
Proof.
  eexists. split; [vm_compute; reflexivity|].
  intros c.
  destruct c as [[] [] [] [] [] [] [] []]; vm_compute; reflexivity.
Qed.

(** On one run, the substitution is the backslash prefixing. *)
Lemma sub_escape_plain (part : string) :
  Re.sub ("([" ++ Re.escape "_*[]()~>#+-=|{}.!" ++ "])")%string "\\\1" part
  = escape_plain part.
Proof.
  destruct escape_pattern_compiles as [cls [Hc Hm]].
  unfold Re.sub. rewrite Hc.
  induction part as [|c rest IH]; [reflexivity|].
  simpl. rewrite Hm, IH.
  destruct (in_escape_set c); reflexivity.
Qed.

Lemma mod2_even (i : nat) : Nat.eqb (Nat.modulo i 2) 0 = Nat.even i.
Proof.
  destruct (Nat.even i) eqn:E.
  - apply Nat.even_spec in E. destruct E as [k ->].
    now rewrite Nat.mul_comm, Nat.Div0.mod_mul.
  - assert (O : Nat.odd i = true) by (now rewrite <- Nat.negb_even, E).
    apply Nat.odd_spec in O. destruct O as [k ->].
    now rewrite Nat.add_comm, Nat.mul_comm, Nat.Div0.mod_add.
Qed.

Lemma escape_step_eq (acc : list string) (i : nat) (part : string) :
  escape_step "_*[]()~>#+-=|{}.!" acc (i, part)
  = acc ++ [if Nat.even i then escape_plain part else part].
Proof.
  unfold escape_step. rewrite mod2_even, sub_escape_plain.
  destruct (Nat.even i); reflexivity.
Qed.

(** The loop over [enumerate(parts)] is the alternation of plain and
    verbatim runs. *)
Lemma escape_loop (parts : list string) (i : nat) (acc : list string) :
  fold_left (escape_step "_*[]()~>#+-=|{}.!") (combine (seq i (length parts)) parts) acc
  = acc ++ alternate (Nat.even i) parts.
Proof.
  revert i acc. induction parts as [|p ps IH]; intros i acc.
  - simpl. now rewrite app_nil_r.
  - cbn [length seq combine fold_left alternate].
    rewrite escape_step_eq, IH, Nat.even_succ, <- Nat.negb_even, <- app_assoc.
    reflexivity.
Qed.

Lemma escape_markdown_v2_alternate (text : string) :
  escape_markdown_v2 text
  = PyStr.join "`" (alternate true (PyStr.split text backtick)).
Proof.
  unfold escape_markdown_v2, PyStr.enumerate.
  now rewrite escape_loop.
Qed.

Lemma alternate_app (b : bool) (xs ys : list string) :
  alternate b (xs ++ ys)
  = alternate b xs ++ alternate (if Nat.even (length xs) then b else negb b) ys.
Proof.
  revert b. induction xs as [|x xs IH]; intros b; [reflexivity|].
  cbn [app alternate length]. rewrite IH, Nat.even_succ, <- Nat.negb_even.
  destruct (Nat.even (length xs)), b; reflexivity.
Qed.

Lemma alternate_length (b : bool) (xs : list string) :
  length (alternate b xs) = length xs.
Proof.
  revert b. induction xs as [|x xs IH]; intros b; simpl; [reflexivity | now rewrite IH].
Qed.

(** C1.  For every input string [text], the runs obtained by splitting
    [text] on the backtick rebuild [text] when rejoined and contain no
    backtick, and [escape_markdown_v2 text] is the backtick-join of
    those runs in which each run at an even index has every character
    of the set [_*[]()~>#+-=|{}.!] prefixed with exactly one backslash
    and each run at an odd index is unchanged; the pattern built with
    [re.escape] matches exactly the characters of that set; and the
    example of the specification evaluates as stated. *)
Theorem escape_markdown_v2_spec :
  (forall text : string,
      let runs := PyStr.split text backtick in
      text = PyStr.join "`" runs
      /\ Forall no_backtick runs
      /\ escape_markdown_v2 text = PyStr.join "`" (alternate true runs)
      /\ forall i, i < length runs ->
           nth i (alternate true runs) "" =
           if Nat.even i then escape_plain (nth i runs "") else nth i runs "")
  /\ escape_markdown_v2 "Hello_World. `code_here`!" = "Hello\_World\. `code_here`\!".
Proof.
  split; [|vm_compute; reflexivity].
  intros text runs. subst runs.
  split; [symmetry; apply (join_split text backtick)|].
  split; [apply split_runs_free|].
  split; [apply escape_markdown_v2_alternate|].
  generalize (PyStr.split text backtick) as runs.
  intros runs.
  assert (G : forall (b : bool) (l : list string) (i : nat), i < length l ->
            nth i (alternate b l) "" =
            if (if Nat.even i then b else negb b) then escape_plain (nth i l "") else nth i l "").
  { intros b l; revert b. induction l as [|x l IH]; intros b i Hi; simpl in Hi; [lia|].
    destruct i as [|i]; [simpl; destruct b; reflexivity|].
    cbn [alternate nth]. rewrite IH by lia.
    rewrite Nat.even_succ, <- Nat.negb_even.
    destruct (Nat.even i), b; reflexivity. }
  intros i Hi. rewrite G by assumption. destruct (Nat.even i); reflexivity.
Qed.

(** C3, as stated, fails.  The text [a`b.] has one backtick, its final
    run is [b.], and the output keeps that run as it is: the full stop
    gets no backslash, so the output does not end with the escaped
    form [b\.] of the final run. *)
Lemma escape_odd_backticks_final_run_not_plain :
  Nat.odd (PyStr.count "a`b." backtick) = true
  /\ last (PyStr.split "a`b." backtick) "" = "b."
  /\ escape_plain "b." = "b\."
  /\ escape_markdown_v2 "a`b." = "a`b."
  /\ ~ (exists out, escape_markdown_v2 "a`b." = (out ++ escape_plain "b.")%string).
Proof.
  repeat split; try (vm_compute; reflexivity).
  intros [out H]. vm_compute in H.
  destruct out as [|c1 [|c2 [|c3 [|c4 [|c5 out]]]]]; simpl in H; discriminate.
Qed.

(** C3, amended.  A text with an odd number of backticks ends with a
    run at an odd split index: the text is [pre ++ "`" ++ r] where [r]
    is the final run, and the output is the escaped [pre], a backtick,
    and [r] unchanged (the final run is verbatim). *)
Theorem escape_odd_backticks_final_run_verbatim (text : string) :
  Nat.odd (PyStr.count text backtick) = true ->
  exists pre r,
    text = (pre ++ "`" ++ r)%string
    /\ r = last (PyStr.split text backtick) ""
    /\ no_backtick r
    /\ Nat.odd (length (PyStr.split text backtick) - 1) = true
    /\ escape_markdown_v2 text = (escape_markdown_v2 pre ++ "`" ++ r)%string.
Proof.
  intros Hodd.
  pose proof (split_length text backtick) as Hlen.
  pose proof (split_runs_free text backtick) as Hfree.
  pose proof (join_split text backtick) as Hjoin.
  pose proof (escape_markdown_v2_alternate text) as Hesc.
  destruct (exists_last (split_not_nil text backtick)) as [head [r Hruns]].
  rewrite Hruns in *. clear Hruns.
  rewrite length_app in Hlen. simpl in Hlen.
  assert (Hh : length head = PyStr.count text backtick) by lia.
  assert (Hne : head <> []).
  { intros ->. simpl in Hh. rewrite <- Hh in Hodd. discriminate. }
  apply Forall_app in Hfree. destruct Hfree as [Hhead Hr].
  apply Forall_inv in Hr. rename Hr into Hr0.
  exists (PyStr.join "`" head), r.
  split.
  { rewrite <- Hjoin. apply join_snoc. exact Hne. }
  split; [now rewrite last_last|].
  split; [exact Hr0|].
  split.
  { rewrite length_app. simpl. replace (length head + 1 - 1) with (length head) by lia.
    now rewrite Hh. }
  rewrite Hesc, alternate_app.
  rewrite <- Nat.negb_odd, Hh, Hodd. simpl.
  rewrite join_snoc.
  - rewrite escape_markdown_v2_alternate.
    change "`" with (String backtick "") at 3.
    now rewrite split_join by assumption.
  - intros E. apply (f_equal (@length string)) in E.
    rewrite alternate_length in E. simpl in E. destruct head; [congruence | discriminate].
Qed.

Lemma escape_odd_backticks_final_run_verbatim_witness :
  exists pre r,
    "a`b." = (pre ++ "`" ++ r)%string
    /\ r = last (PyStr.split "a`b." backtick) ""
    /\ no_backtick r
    /\ Nat.odd (length (PyStr.split "a`b." backtick) - 1) = true
    /\ escape_markdown_v2 "a`b." = (escape_markdown_v2 pre ++ "`" ++ r)%string.
Proof.
  apply (escape_odd_backticks_final_run_verbatim "a`b."). reflexivity.
Defined.

(* ================================================================ *)
(** * Properties of the caption synthesis *)
(* ================================================================ *)

Lemma truthy_newline_prefix (s : string) : PyStr.truthy (newline ++ s) = true.
Proof. reflexivity. Qed.

(** C2, as stated, fails.  With the template [Daily build] and an
    empty channel handle the code still appends the third fragment (a
    lone newline), and the fragments are two newlines apart: the
    caption is not the single-newline join of the non-empty fragments. *)
Lemma full_caption_not_single_newline_join :
  full_caption "Daily build" "1404/05/03 13:30:00" "2025-07-25 10:00:00" ""
  = ("Daily build" ++ newline ++ newline
      ++ "Latest Update: `1404/05/03 13:30:00 | 2025-07-25 10:00:00 UTC`"
      ++ newline ++ newline)%string
  /\ spec_full_caption "Daily build" "1404/05/03 13:30:00" "2025-07-25 10:00:00" ""
     = ("Daily build" ++ newline
         ++ "Latest Update: `1404/05/03 13:30:00 | 2025-07-25 10:00:00 UTC`")%string
  /\ full_caption "Daily build" "1404/05/03 13:30:00" "2025-07-25 10:00:00" ""
     <> spec_full_caption "Daily build" "1404/05/03 13:30:00" "2025-07-25 10:00:00" "".
Proof.
  split; [vm_compute; reflexivity|].
  split; [vm_compute; reflexivity|].
  vm_compute. discriminate.
Qed.

(** C2, amended.  The caption is the newline-join of the non-empty
    ones among three fragments: the template, the timestamp line
    preceded by a newline, and the channel handle preceded by a
    newline.  For a non-empty channel handle it therefore reads, in
    order: the template followed by a newline (if the template is not
    empty), a newline, the line [Latest Update: `jalali | utc UTC`],
    two newlines, the handle. *)
Theorem full_caption_layout (base_text jalali_str utc_str channel_handle : string) :
  channel_handle <> "" ->
  full_caption base_text jalali_str utc_str channel_handle
  = ((if PyStr.truthy base_text then base_text ++ newline else "")
     ++ newline ++ "Latest Update: `" ++ jalali_str ++ " | " ++ utc_str ++ " UTC`"
     ++ newline ++ newline ++ channel_handle)%string.
Proof.
  intros _. unfold full_caption.
  cbn [filter]. rewrite !truthy_newline_prefix.
  destruct (PyStr.truthy base_text) eqn:E.
  - rewrite join_cons by discriminate. rewrite join_cons by discriminate.
    cbn [PyStr.join]. now rewrite !string_app_assoc.
  - rewrite join_cons by discriminate. cbn [PyStr.join].
    now rewrite !string_app_assoc.
Qed.

Lemma full_caption_layout_witness :
  full_caption "Daily build" "1404/05/03 13:30:00" "2025-07-25 10:00:00" "@channel"
  = ((if PyStr.truthy "Daily build" then "Daily build" ++ newline else "")
     ++ newline ++ "Latest Update: `" ++ "1404/05/03 13:30:00" ++ " | "
     ++ "2025-07-25 10:00:00" ++ " UTC`"
     ++ newline ++ newline ++ "@channel")%string.
Proof.
  apply (full_caption_layout "Daily build" "1404/05/03 13:30:00" "2025-07-25 10:00:00" "@channel").
  discriminate.
Defined.

(* ================================================================ *)
(** * Properties of the effectful code *)
(* ================================================================ *)

(** Unfolding of the monad and of the calls to the outside world. *)
Ltac unfold_monad :=
  unfold bind, ret, raise, lift, try_except, log,
    call_time, call_now, call_is_dir, call_exists, call_glob,
    query_is_dir, query_glob, query_exists,
    call_rename, call_run, call_open, call_post, call_sleep in *.

Section GuardProperties.
Context {num W : Type} {NUM : PyNum num} {OSI : OS num W}.

Lemma is_time_exceeded_tripped (rm : RuntimeManager) (w : W) :
  time_exceeded rm = true ->
  is_time_exceeded rm w = (Ret (true, rm), w, []).
Proof.
  intros H. unfold is_time_exceeded. rewrite H. reflexivity.
Qed.

(** The three ways a call on an untripped manager can end. *)
Lemma is_time_exceeded_fresh (rm : RuntimeManager) (w : W) :
  time_exceeded rm = false ->
  is_time_exceeded rm w =
  let t := fst (time_time w) in
  let w1 := snd (time_time w) in
  match py_gt (num_sub t (start_time rm)) (max_seconds rm) with
  | Raise e => (Raise e, w1, [EvClock t])
  | Ret true =>
      (Ret (true, set_time_exceeded rm), w1,
       [EvClock t;
        EvLog WARNING
          "Execution time limit of {self.max_seconds} seconds reached. Stopping operations."])
  | Ret false => (Ret (false, rm), w1, [EvClock t])
  end.
Proof.
  intros H. unfold is_time_exceeded. rewrite H. unfold_monad.
  destruct (time_time w) as [t w1]. simpl.
  destruct (py_gt (num_sub t (start_time rm)) (max_seconds rm)) as [[|]|e]; reflexivity.
Qed.

Lemma is_time_exceeded_true_trips (rm rm' : RuntimeManager) (w w' : W)
    (tr : list (event num)) :
  is_time_exceeded rm w = (Ret (true, rm'), w', tr) ->
  time_exceeded rm' = true.
Proof.
  destruct (time_exceeded rm) eqn:E.
  - rewrite is_time_exceeded_tripped by assumption. intros H. now inversion H; subst.
  - rewrite is_time_exceeded_fresh by assumption. cbv zeta.
    destruct (py_gt _ _) as [[|]|e]; intros H; inversion H; subst; reflexivity.
Qed.

Lemma is_time_exceeded_false_keeps (rm rm' : RuntimeManager) (w w' : W)
    (tr : list (event num)) :
  is_time_exceeded rm w = (Ret (false, rm'), w', tr) ->
  rm' = rm /\ time_exceeded rm = false
  /\ tr = [EvClock (fst (time_time w))]
  /\ over_budget rm (fst (time_time w)) = false.
Proof.
  destruct (time_exceeded rm) eqn:E.
  - rewrite is_time_exceeded_tripped by assumption. intros H. inversion H.
  - rewrite is_time_exceeded_fresh by assumption. cbv zeta. unfold over_budget.
    destruct (py_gt _ _) as [[|]|e]; intros H; inversion H; subst; auto.
Qed.

Lemma checks_tripped (rm : RuntimeManager) (ws : list W) :
  time_exceeded rm = true ->
  checks rm ws = map (fun _ => Ret true) ws.
Proof.
  intros H. induction ws as [|w ws IH]; [reflexivity|].
  simpl. rewrite is_time_exceeded_tripped by assumption. now rewrite IH.
Qed.

Lemma checks_sticky (ws : list W) :
  forall (rm : RuntimeManager) (i j : nat),
    i <= j -> j < length ws ->
    nth_error (checks rm ws) i = Some (Ret true) ->
    nth_error (checks rm ws) j = Some (Ret true).
Proof.
  induction ws as [|w ws IH]; intros rm i j Hij Hj Hi; [simpl in Hj; lia|].
  simpl in Hi |- *.
  destruct (is_time_exceeded rm w) as [[[[answer rm']|e] w'] tr] eqn:E.
  - destruct i as [|i].
    + simpl in Hi. injection Hi as ->.
      apply is_time_exceeded_true_trips in E.
      destruct j as [|j]; [reflexivity|]. simpl.
      rewrite checks_tripped by assumption.
      rewrite nth_error_map.
      simpl in Hj.
      destruct (nth_error ws j) eqn:N; [reflexivity|].
      apply nth_error_None in N. lia.
    + destruct j as [|j]; [lia|]. simpl in Hi, Hj |- *.
      apply (IH rm' i j); [lia | lia | exact Hi].
  - destruct i as [|i]; [discriminate|].
    simpl in Hi. destruct i; discriminate.
Qed.

(** C9.  Successive calls of [is_time_exceeded] on one manager, made
    in arbitrary states of the world (so whatever the clock says at
    the later calls): once a call has answered true, every later call
    answers true; a tripped manager answers true without reading the
    clock.  And [max_seconds] is 3300 when the configuration has no
    [runtime] section or the section has no [max_execution_seconds]. *)
Theorem is_time_exceeded_sticky (rm : RuntimeManager) (ws : list W) (i j : nat)
    (start : num) (entries : list (string * json num)) :
  i <= j -> j < length ws ->
  nth_error (checks rm ws) i = Some (Ret true) ->
  nth_error (checks rm ws) j = Some (Ret true)
  /\ (forall rm1 w1 rm2 w2 tr,
        is_time_exceeded rm1 w1 = (Ret (true, rm2), w2, tr) ->
        forall w3, is_time_exceeded rm2 w3 = (Ret (true, rm2), w3, []))
  /\ RuntimeManager_init start (JDict entries) =
     match assoc "runtime" entries with
     | None =>
         Ret {| start_time := start; max_seconds := JNum (num_of_Z 3300);
                time_exceeded := false |}
     | Some (JDict section) =>
         Ret {| start_time := start;
                max_seconds :=
                  match assoc "max_execution_seconds" section with
                  | Some v => v
                  | None => JNum (num_of_Z 3300)
                  end;
                time_exceeded := false |}
     | Some _ => Raise (AttributeError "object has no attribute 'get'")
     end.
Proof.
  intros Hij Hj Hi. split; [|split].
  - exact (checks_sticky ws rm i j Hij Hj Hi).
  - intros rm1 w1 rm2 w2 tr H w3.
    apply is_time_exceeded_tripped.
    exact (is_time_exceeded_true_trips _ _ _ _ _ H).
  - unfold RuntimeManager_init. simpl.
    destruct (assoc "runtime" entries) as [[| | | | |section]|]; reflexivity.
Qed.

End GuardProperties.

(** The ceiling is 10 seconds and the run started at second 0: the
    first call reads 11 and trips; the clock then reads 5 and 0, and
    the answers stay true. *)
Lemma is_time_exceeded_sticky_witness :
  nth_error
    (checks (Scripted.manager 0 10)
       [Scripted.world0 [11%Z] []; Scripted.world0 [5%Z] []; Scripted.world0 [0%Z] []])
    2 = Some (Ret true).
Proof.
  refine (proj1 (is_time_exceeded_sticky (Scripted.manager 0 10)
            [Scripted.world0 [11%Z] []; Scripted.world0 [5%Z] []; Scripted.world0 [0%Z] []]
            0 2 0%Z [] _ _ _)).
  - lia.
  - simpl. lia.
  - reflexivity.
Defined.

Section ArchiveProperties.
Context {num W : Type} {NUM : PyNum num} {OSI : OS num W}.

(** The [try] statement around [subprocess.run] never lets an
    exception through, and every handler returns the empty list. *)
Lemma run_7z_cases (command : list string) (w : W) :
  match subprocess_run command w with
  | (Ret _, w1) =>
      exists tr, run_7z command w = (Ret None, w1, tr)
  | (Raise e, w1) =>
      exists tr, run_7z command w = (Ret (Some []), w1, tr)
  end.
Proof.
  unfold run_7z. unfold_monad.
  destruct (subprocess_run command w) as [[out|e] w1]; simpl.
  - eexists; reflexivity.
  - destruct (is_FileNotFoundError e); [eexists; reflexivity|].
    destruct (is_CalledProcessError e); eexists; reflexivity.
Qed.

Lemma sorted_nil_inv (ps : list Path) : sorted ps = [] -> ps = [].
Proof.
  destruct ps as [|p ps]; [reflexivity|].
  unfold sorted. simpl.
  destruct (fold_right insert_sorted [] ps) as [|q qs]; simpl; [discriminate|].
  destruct (String.leb p q); discriminate.
Qed.

(** C7, as stated, fails.  The archive name [my**archive] gives the
    pattern [my**archive.7z.*]; after a successful run of the
    compressor the glob of line 231, which is outside the [try],
    refuses that pattern with [ValueError], and
    [create_multivolume_archive] lets the exception through. *)
Lemma create_multivolume_archive_propagates_glob_error :
  path_is_dir (W := Strict.world) "/tmp/w/data" Strict.Ready = true
  /\ subprocess_run (W := Strict.world)
       (command_7z 15 "/tmp/w/my**archive.7z" "/tmp/w/data") Strict.Ready
     = (Ret "Everything is Ok", Strict.Ready)
  /\ exists tr,
       create_multivolume_archive "/tmp/w/data" "/tmp/w/my**archive.7z" 15 Strict.Ready
       = (Raise (OtherException
                   "ValueError: Invalid pattern: '**' can only be an entire path component"),
          Strict.Ready, tr).
Proof.
  split; [reflexivity|]. split; [reflexivity|].
  eexists. vm_compute. reflexivity.
Qed.

Ltac archive_case :=
  repeat split; intros;
  repeat match goal with
         | H : (_, _) = (_, _) |- _ => inversion H; subst; clear H
         end;
  try match goal with
      | Hg : path_glob _ _ _ = [], Hm : is_empty _ = false |- _ =>
          rewrite Hg in Hm; discriminate
      end;
  first [ discriminate
        | congruence
        | eexists; reflexivity
        | left; assumption
        | left; reflexivity
        | right; eexists; split; [reflexivity | left; assumption]
        | right; eexists; split; [reflexivity | right; assumption] ].

(** C7, amended.  [create_multivolume_archive] returns the empty list
    when the directory test answers that the source is not a
    directory, when [subprocess.run] raises any exception
    ([FileNotFoundError] for a missing compressor,
    [CalledProcessError] for a non-zero exit, or any other), and
    when, after a successful run, the glob finds no part and the bare
    output path does not exist.  No exception of the compressor
    invocation is propagated: an exception leaves the function only
    when the directory test, the glob or the existence test raised
    it (these three calls are outside the [try]). *)
Theorem create_multivolume_archive_failures
    (directory_to_zip archive_output_path : Path) (chunk_size_mb : Z) (w : W) :
  let command := command_7z chunk_size_mb archive_output_path directory_to_zip in
  let parent := path_parent archive_output_path in
  let pattern := (path_name archive_output_path ++ ".*")%string in
  let outcome := create_multivolume_archive directory_to_zip archive_output_path chunk_size_mb w in
  (path_is_dir_error directory_to_zip w = None ->
   path_is_dir directory_to_zip w = false ->
   exists tr, outcome = (Ret [], w, tr))
  /\ (forall e w1,
        path_is_dir_error directory_to_zip w = None ->
        path_is_dir directory_to_zip w = true ->
        subprocess_run command w = (Raise e, w1) ->
        exists tr, outcome = (Ret [], w1, tr))
  /\ (forall out w1,
        path_is_dir_error directory_to_zip w = None ->
        path_is_dir directory_to_zip w = true ->
        subprocess_run command w = (Ret out, w1) ->
        path_glob_error parent pattern w1 = None ->
        path_glob parent pattern w1 = [] ->
        path_exists_error archive_output_path w1 = None ->
        path_exists archive_output_path w1 = false ->
        exists tr, outcome = (Ret [], w1, tr))
  /\ (forall e w' tr,
        outcome = (Raise e, w', tr) ->
        path_is_dir_error directory_to_zip w = Some e
        \/ exists out,
             subprocess_run command w = (Ret out, w')
             /\ (path_glob_error parent pattern w' = Some e
                 \/ path_exists_error archive_output_path w' = Some e)).
Proof.
  intros command parent pattern outcome. subst outcome.
  unfold create_multivolume_archive. fold command. fold parent. fold pattern.
  unfold run_7z. unfold_monad. cbv beta.
  destruct (path_is_dir_error directory_to_zip w) as [e0|] eqn:Hde; cbv beta iota;
    [archive_case|].
  destruct (path_is_dir directory_to_zip w) eqn:Hdir; cbn [negb]; cbv beta iota;
    [|archive_case].
  destruct (subprocess_run command w) as [[out|e1] w1] eqn:Hsub; cbv beta iota.
  2:{ destruct (is_FileNotFoundError e1); [|destruct (is_CalledProcessError e1)];
        archive_case. }
  destruct (path_glob_error parent pattern w1) as [e2|] eqn:Hge; cbv beta iota;
    [archive_case|].
  destruct (is_empty (sorted (path_glob parent pattern w1))) eqn:Hempty;
    [|archive_case].
  destruct (path_exists_error archive_output_path w1) as [e3|] eqn:Hee; cbv beta iota;
    [archive_case|].
  destruct (path_exists archive_output_path w1) eqn:Hex; archive_case.
Qed.


(** C8.  The part list after step 4 of [main].  When the list has
    exactly one part whose name ends with [.001], the rename to the
    bare output path is attempted: if it succeeds the list is the bare
    output path alone, and if it raises an [OSError] the call still
    returns and the list is the one it was given.  In every other case
    no rename is attempted and the list is returned as it is. *)
Theorem rename_single_part_spec (archive_chunks : list Path)
    (archive_output_path : Path) (w : W) :
  let single := Nat.eqb (length archive_chunks) 1
                && PyStr.endswith (path_name (hd "" archive_chunks)) ".001" in
  let outcome := rename_single_part archive_chunks archive_output_path w in
  (single = false -> outcome = (Ret archive_chunks, w, []))
  /\ (forall w1,
        single = true ->
        path_rename (hd "" archive_chunks) archive_output_path w = (Ret tt, w1) ->
        exists info,
          outcome = (Ret [archive_output_path], w1,
                     [EvLog INFO info; EvRename (hd "" archive_chunks) archive_output_path]))
  /\ (forall e w1,
        single = true ->
        path_rename (hd "" archive_chunks) archive_output_path w = (Raise e, w1) ->
        is_OSError e = true ->
        exists info err,
          outcome = (Ret archive_chunks, w1,
                     [EvLog INFO info; EvRename (hd "" archive_chunks) archive_output_path;
                      EvLog ERROR err])).
Proof.
  intros single outcome. subst outcome. unfold rename_single_part. fold single.
  destruct single.
  - split; [discriminate|].
    split.
    + intros w1 _ H. unfold_monad. rewrite H. simpl. eexists; reflexivity.
    + intros e w1 _ H He. unfold_monad. rewrite H, He. simpl.
      do 2 eexists; reflexivity.
  - split; [reflexivity|].
    split; [intros w1 H; discriminate | intros e w1 H; discriminate].
Qed.

End ArchiveProperties.

(* ================================================================ *)
(** * Properties of the upload loop *)
(* ================================================================ *)

Ltac shape_done :=
  simpl; repeat split; intros; try discriminate; try reflexivity; auto.

Section LoopProperties.
Context {num W : Type} {NUM : PyNum num} {OSI : OS num W}.

Lemma uploads_app (t1 t2 : list (event num)) :
  uploads (t1 ++ t2) = uploads t1 ++ uploads t2.
Proof.
  induction t1 as [|e t1 IH]; [reflexivity|].
  destruct e; simpl; rewrite ?IH; reflexivity.
Qed.

Lemma protocol_run_app (rm : RuntimeManager) (s : phase) (t1 t2 : list (event num)) :
  protocol_run rm s (t1 ++ t2) =
  match protocol_run rm s t1 with
  | Some s' => protocol_run rm s' t2
  | None => None
  end.
Proof.
  revert s. induction t1 as [|e t1 IH]; intros s; [reflexivity|].
  simpl. destruct (protocol_step rm s e); [apply IH | reflexivity].
Qed.

Lemma protocol_run_stopped (rm : RuntimeManager) (tr : list (event num)) (s : phase) :
  protocol_run rm Stopped tr = Some s -> forallb is_log tr = true.
Proof.
  induction tr as [|e tr IH]; [reflexivity|].
  simpl. destruct e; simpl; try discriminate. exact IH.
Qed.

(** In an accepted trace only log records follow the first stopping
    event. *)
Lemma protocol_after_stop (rm : RuntimeManager) (tr : list (event num)) :
  forall s s', protocol_run rm s tr = Some s' ->
               forallb is_log (after_stop rm tr) = true.
Proof.
  induction tr as [|e tr IH]; intros s s' H; [reflexivity|].
  simpl in H |- *.
  destruct (protocol_step rm s e) as [s1|] eqn:Hs; [|discriminate].
  destruct (stops rm e) eqn:Hstop.
  - assert (s1 = Stopped) as ->.
    { destruct e; simpl in Hstop; try discriminate; destruct s; simpl in Hs;
        try discriminate.
      - rewrite Hstop in Hs. now injection Hs.
      - apply negb_true_iff in Hstop. rewrite Hstop in Hs. now injection Hs. }
    exact (protocol_run_stopped rm tr s' H).
  - exact (IH s1 s' H).
Qed.

(** One call of [send_document]: either nothing was posted and the
    answer is not [True], or one request was posted, with the file and
    the escaped caption, and the answer is [True] exactly when the
    request was delivered. *)
Lemma send_document_shape (rm : RuntimeManager) (self : TelegramPoster)
    (file_path : Path) (caption : string) (w : W) :
  forall r w' tr,
    send_document self file_path caption w = (r, w', tr) ->
    (uploads tr = [] /\ r <> Ret true /\ protocol_run rm Cleared tr = Some Cleared)
    \/ (exists ok,
          uploads tr = [(file_path, escape_markdown_v2 caption, ok)]
          /\ (r = Ret true <-> ok = true)
          /\ protocol_run rm Cleared tr = Some (if ok then Idle else Stopped)).
Proof.
  unfold send_document, raise_for_status. unfold_monad. cbv beta.
  destruct (path_exists file_path w); cbn [negb]; cbv beta iota.
  2:{ intros r w' tr H. inversion H; subst. left. shape_done. }
  destruct (open_rb file_path w) as [[[]|e] w1].
  2:{ destruct e as [m|m|c m|m [resp|]|m|m|m]; intros r w' tr H; inversion H; subst; left;
        shape_done. }
  destruct (dict_get (poster_config self) "runtime" (JDict [])) as [runtime|e].
  2:{ destruct e as [m|m|c m|m [resp|]|m|m|m]; intros r w' tr H; inversion H; subst; left;
        shape_done. }
  destruct (dict_get runtime "request_timeout" (JNum (num_of_Z 120))) as [timeout|e].
  2:{ destruct e as [m|m|c m|m [resp|]|m|m|m]; intros r w' tr H; inversion H; subst; left;
        shape_done. }
  destruct (requests_post _ _ _ _ w1) as [[resp|e] w2] eqn:Hpost.
  - destruct ((400 <=? status_code resp)%Z && (status_code resp <? 600)%Z) eqn:Hst;
      intros r w' tr H; inversion H; subst; right.
    + exists false. simpl. rewrite Hst. shape_done.
    + exists true. simpl. rewrite Hst. shape_done.
  - destruct e as [m|m|c m|m [resp|]|m|m|m]; intros r w' tr H; inversion H; subst; right;
      exists false; shape_done.
Qed.

Lemma is_time_exceeded_true_trace (rm rm' : RuntimeManager) (w w' : W)
    (tr : list (event num)) :
  is_time_exceeded rm w = (Ret (true, rm'), w', tr) ->
  uploads tr = [] /\ exists s, protocol_run rm Idle tr = Some s.
Proof.
  destruct (time_exceeded rm) eqn:E.
  - rewrite is_time_exceeded_tripped by assumption. intros H. inversion H; subst.
    split; [reflexivity | now exists Idle].
  - rewrite is_time_exceeded_fresh by assumption. cbv zeta.
    destruct (py_gt _ _) as [[|]|e] eqn:G; intros H; inversion H; subst.
    split; [reflexivity|]. simpl. unfold over_budget. rewrite G. now exists Stopped.
Qed.

Lemma is_time_exceeded_raise_trace (rm : RuntimeManager) (w w' : W) (e : exn)
    (tr : list (event num)) :
  is_time_exceeded rm w = (Raise e, w', tr) ->
  uploads tr = [] /\ exists s, protocol_run rm Idle tr = Some s.
Proof.
  destruct (time_exceeded rm) eqn:E.
  - rewrite is_time_exceeded_tripped by assumption. intros H. inversion H.
  - rewrite is_time_exceeded_fresh by assumption. cbv zeta.
    destruct (py_gt _ _) as [[|]|e'] eqn:G; intros H; inversion H; subst.
    split; [reflexivity|]. simpl. unfold over_budget. rewrite G. now exists Stopped.
Qed.

Lemma protocol_run_logs (rm : RuntimeManager) (s : phase) (tr : list (event num)) :
  forallb is_log tr = true -> protocol_run rm s tr = Some s.
Proof.
  induction tr as [|e tr IH]; [reflexivity|].
  simpl. destruct e; simpl; try discriminate. exact IH.
Qed.

(** Normal form of the uploads and of the protocol run of a trace
    that begins with a clock reading within the budget. *)
Ltac trace_norm Hbudget Hu Hp :=
  cbn [app uploads protocol_run protocol_step];
  rewrite ?Hbudget;
  rewrite ?uploads_app, ?protocol_run_app;
  rewrite ?Hu, ?Hp;
  cbn [app uploads protocol_run protocol_step uploads_follow].

(** The trace of the loop: its uploads follow the part list, and the
    delivery protocol accepts it. *)
Lemma upload_loop_shape (poster : TelegramPoster)
    (full_caption output_archive_basename : string) (total_parts : nat)
    (chunks : list Path) :
  forall (i : nat) (rm : RuntimeManager) (w : W) r w' tr,
    upload_loop poster full_caption output_archive_basename total_parts i chunks rm w
    = (r, w', tr) ->
    uploads_follow total_parts full_caption output_archive_basename i chunks (uploads tr)
    /\ exists s, protocol_run rm Idle tr = Some s.
Proof.
  induction chunks as [|chunk rest IH]; intros i rm w r w' tr H.
  - simpl in H. unfold ret in H. inversion H; subst. simpl. split; [exact I | now exists Idle].
  - cbn [upload_loop] in H. unfold bind at 1 in H.
    destruct (is_time_exceeded rm w) as [[[[exceeded rm1]|e] w1] t1] eqn:Hc.
    2:{ inversion H; subst.
        destruct (is_time_exceeded_raise_trace _ _ _ _ _ Hc) as [Hu Hp].
        rewrite Hu. split; [exact I | exact Hp]. }
    destruct exceeded.
    + (* the guard says stop *)
      destruct (is_time_exceeded_true_trace _ _ _ _ _ Hc) as [Hu [s Hp]].
      unfold_monad. inversion H; subst.
      rewrite uploads_app, Hu. split; [exact I|].
      rewrite protocol_run_app, Hp. simpl. now exists s.
    + (* the guard lets the part through *)
      destruct (is_time_exceeded_false_keeps _ _ _ _ _ Hc) as [-> [_ [-> Hbudget]]].
      unfold bind at 1 in H.
      destruct (send_document poster chunk
                  (current_caption i total_parts full_caption output_archive_basename) w1)
        as [[[sent|e] w2] t2] eqn:Hs.
      2:{ inversion H; subst.
          destruct (send_document_shape rm _ _ _ _ _ _ _ Hs) as [[Hu [_ Hp]]|[ok [Hu [Hok Hp]]]].
          - trace_norm Hbudget Hu Hp. split; [exact I | now exists Cleared].
          - destruct ok; [destruct Hok as [_ Hok]; discriminate (Hok eq_refl)|].
            trace_norm Hbudget Hu Hp. split; [auto | now exists Stopped]. }
      destruct sent; cbn [negb] in H.
      * (* delivered: pause if parts remain, then go on *)
        destruct (send_document_shape rm _ _ _ _ _ _ _ Hs) as [[_ [Hne _]]|[ok [Hu [Hok Hp]]]];
          [congruence|].
        destruct ok; [|destruct Hok as [Hok _]; discriminate (Hok eq_refl)].
        unfold bind at 1 in H.
        destruct (Nat.ltb (i + 1) total_parts).
        -- unfold_monad.
           destruct (upload_loop poster full_caption output_archive_basename total_parts
                       (S i) rest rm (time_sleep 3 w2)) as [[r3 w3] t3] eqn:Hl.
           inversion H; subst. apply IH in Hl. destruct Hl as [Hf [s Hp3]].
           trace_norm Hbudget Hu Hp. split; [auto | now exists s].
        -- unfold_monad.
           destruct (upload_loop poster full_caption output_archive_basename total_parts
                       (S i) rest rm w2) as [[r3 w3] t3] eqn:Hl.
           inversion H; subst. apply IH in Hl. destruct Hl as [Hf [s Hp3]].
           trace_norm Hbudget Hu Hp. split; [auto | now exists s].
      * (* not delivered: stop *)
        unfold_monad. inversion H; subst.
        destruct (send_document_shape rm _ _ _ _ _ _ _ Hs) as [[Hu [_ Hp]]|[ok [Hu [Hok Hp]]]].
        -- trace_norm Hbudget Hu Hp. split; [exact I | now exists Cleared].
        -- destruct ok; [destruct Hok as [_ Hok]; discriminate (Hok eq_refl)|].
           trace_norm Hbudget Hu Hp. split; [auto | now exists Stopped].
Qed.

Lemma uploads_follow_nth (total_parts : nat) (full_caption output_archive_basename : string)
    (ups : list (Path * string * bool)) :
  forall (i : nat) (chunks : list Path) (k : nat) p c ok,
    uploads_follow total_parts full_caption output_archive_basename i chunks ups ->
    nth_error ups k = Some (p, c, ok) ->
    nth_error chunks k = Some p
    /\ c = escape_markdown_v2
             (current_caption (i + k) total_parts full_caption output_archive_basename)
    /\ (forall j, j < k ->
          exists pj,
            nth_error chunks j = Some pj
            /\ nth_error ups j =
               Some (pj,
                     escape_markdown_v2
                       (current_caption (i + j) total_parts full_caption
                          output_archive_basename),
                     true))
    /\ (ok = false -> length ups = S k).
Proof.
  induction ups as [|[[p0 c0] ok0] ups IH]; intros i chunks k p c ok Hf Hk.
  - destruct k; discriminate.
  - destruct chunks as [|q rest]; [contradiction|].
    cbn [uploads_follow] in Hf. destruct Hf as [-> [-> Hrest]].
    destruct k as [|k].
    + simpl in Hk. injection Hk as <- <- <-.
      rewrite Nat.add_0_r. repeat split; [intros j Hj; lia|].
      intros ->. now rewrite Hrest.
    + simpl in Hk.
      destruct ok0; [|rewrite Hrest in Hk; destruct k; discriminate].
      destruct (IH (S i) rest k p c ok Hrest Hk) as [Hc [Hcap [Hbefore Hlast]]].
      split; [exact Hc|].
      split; [now rewrite Nat.add_succ_r|].
      split.
      * intros [|j] Hj.
        -- exists q. rewrite Nat.add_0_r. now split.
        -- destruct (Hbefore j ltac:(lia)) as [pj [Hpj Huj]].
           exists pj. rewrite Nat.add_succ_r. now split.
      * intros Hok. simpl. now rewrite (Hlast Hok).
Qed.

Lemma uploads_follow_delivered (total_parts : nat)
    (full_caption output_archive_basename : string) (ups : list (Path * string * bool)) :
  forall (i : nat) (chunks : list Path),
    uploads_follow total_parts full_caption output_archive_basename i chunks ups ->
    exists n,
      n <= length chunks
      /\ map (fun u => fst (fst u)) (filter (fun u => snd u) ups) = firstn n chunks.
Proof.
  induction ups as [|[[p0 c0] ok0] ups IH]; intros i chunks Hf.
  - exists 0. split; [lia | reflexivity].
  - destruct chunks as [|q rest]; [contradiction|].
    cbn [uploads_follow] in Hf. destruct Hf as [-> [-> Hrest]].
    destruct ok0.
    + destruct (IH (S i) rest Hrest) as [n [Hn Hd]].
      exists (S n). split; [simpl; lia|]. simpl. now rewrite Hd.
    + subst ups. exists 0. split; [lia | reflexivity].
Qed.

(** C4.  The caption of part 0 is the full caption when there is one
    part and the full caption followed by [ (Part 1/N)] when there
    are [N > 1] parts; the caption of part [i > 0] is the archive base
    name followed by [ (Part i+1/N)].  In every run of the upload
    loop, the upload at position [k] is part [k] of the list with the
    escaped caption of index [k].  With three parts the captions read
    as in the specification. *)
Theorem current_caption_spec (full output_archive_basename : string) (N i : nat) :
  (N = 1 -> current_caption 0 N full output_archive_basename = full)
  /\ (1 < N ->
      current_caption 0 N full output_archive_basename
      = (full ++ " (Part 1/" ++ PyStr.str_of_nat N ++ ")")%string)
  /\ (0 < i ->
      current_caption i N full output_archive_basename
      = (output_archive_basename ++ " (Part " ++ PyStr.str_of_nat (i + 1) ++ "/"
           ++ PyStr.str_of_nat N ++ ")")%string)
  /\ (forall (poster : TelegramPoster) (chunks : list Path) (rm : RuntimeManager) (w : W)
             r w' tr k p c ok,
        upload_loop poster full output_archive_basename N 0 chunks rm w = (r, w', tr) ->
        nth_error (uploads tr) k = Some (p, c, ok) ->
        nth_error chunks k = Some p
        /\ c = escape_markdown_v2 (current_caption k N full output_archive_basename))
  /\ current_caption 0 1 "Daily build" "archive" = "Daily build"
  /\ current_caption 0 3 "Daily build" "archive" = "Daily build (Part 1/3)"
  /\ current_caption 1 3 "Daily build" "archive" = "archive (Part 2/3)"
  /\ current_caption 2 3 "Daily build" "archive" = "archive (Part 3/3)".
Proof.
  split; [intros ->; reflexivity|].
  split.
  { intros H. unfold current_caption. simpl Nat.eqb. cbv iota.
    apply Nat.ltb_lt in H. rewrite H. reflexivity. }
  split.
  { intros H. unfold current_caption.
    destruct i as [|i]; [lia | reflexivity]. }
  split.
  { intros poster chunks rm w r w' tr k p c ok Hrun Hk.
    destruct (upload_loop_shape _ _ _ _ _ _ _ _ _ _ _ Hrun) as [Hf _].
    destruct (uploads_follow_nth _ _ _ _ _ _ _ _ _ _ Hf Hk) as [Hc [Hcap _]].
    split; assumption. }
  repeat split; reflexivity.
Qed.

(** C5.  In a run of the upload loop, if the request for the part at
    position [k] is not delivered, then that request carried part [k]
    of the list, the requests at the positions before [k] carried the
    parts before [k] and were all delivered, no request follows (the
    trace has [k + 1] uploads, one per part), and after the failed
    request the trace holds log records only.  Whenever
    [send_document] answers [False] for a part, the loop ends in that
    iteration, whatever parts remain. *)
Theorem upload_loop_abort_on_failure (poster : TelegramPoster)
    (full output_archive_basename : string) (total_parts : nat)
    (chunks : list Path) (rm : RuntimeManager) (w : W)
    r w' tr (k : nat) (p : Path) (c : string) :
  upload_loop poster full output_archive_basename total_parts 0 chunks rm w = (r, w', tr) ->
  nth_error (uploads tr) k = Some (p, c, false) ->
  nth_error chunks k = Some p
  /\ (forall j, j < k ->
        exists pj cj,
          nth_error chunks j = Some pj
          /\ nth_error (uploads tr) j = Some (pj, cj, true))
  /\ length (uploads tr) = S k
  /\ forallb is_log (after_stop rm tr) = true
  /\ (forall chunk rest i rm0 w0 w1 t1 w2 t2,
        is_time_exceeded rm0 w0 = (Ret (false, rm0), w1, t1) ->
        send_document poster chunk
          (current_caption i total_parts full output_archive_basename) w1
        = (Ret false, w2, t2) ->
        exists failure,
          upload_loop poster full output_archive_basename total_parts i (chunk :: rest) rm0 w0
          = (Ret rm0, w2, t1 ++ t2 ++ [EvLog ERROR failure])).
Proof.
  intros Hrun Hk.
  destruct (upload_loop_shape _ _ _ _ _ _ _ _ _ _ _ Hrun) as [Hf [s Hp]].
  destruct (uploads_follow_nth _ _ _ _ _ _ _ _ _ _ Hf Hk) as [Hc [_ [Hbefore Hlast]]].
  split; [exact Hc|].
  split.
  { intros j Hj. destruct (Hbefore j Hj) as [pj [Hpj Huj]]. eauto. }
  split; [now apply Hlast|].
  split; [exact (protocol_after_stop rm tr Idle s Hp)|].
  intros chunk rest i rm0 w0 w1 t1 w2 t2 Hcheck Hsend.
  cbn [upload_loop]. unfold bind at 1. rewrite Hcheck. cbv beta iota.
  unfold bind at 1. rewrite Hsend. cbn [negb]. unfold_monad.
  eexists. reflexivity.
Qed.

(** C6.  Every trace of the upload loop is accepted by the delivery
    protocol: a request is posted only after a clock reading taken
    since the previous request and found within the budget, and after
    a reading beyond the budget only log records follow.  The parts
    delivered are the first [n] parts of the list for some [n], so the
    parts not delivered are a suffix of it.  If the first reading of
    the clock exceeds the ceiling, the first check answers true and no
    request is posted at all. *)
Theorem upload_loop_time_budget (poster : TelegramPoster)
    (full output_archive_basename : string) (total_parts : nat)
    (chunks : list Path) (rm : RuntimeManager) (w : W) r w' tr :
  upload_loop poster full output_archive_basename total_parts 0 chunks rm w = (r, w', tr) ->
  (exists s, protocol_run rm Idle tr = Some s)
  /\ forallb is_log (after_stop rm tr) = true
  /\ (exists n,
        n <= length chunks
        /\ delivered_parts tr = firstn n chunks
        /\ chunks = delivered_parts tr ++ skipn n chunks)
  /\ (time_exceeded rm = false ->
      py_gt (num_sub (fst (time_time w)) (start_time rm)) (max_seconds rm) = Ret true ->
      fst (fst (is_time_exceeded rm w)) = Ret (true, set_time_exceeded rm)
      /\ uploads tr = []
      /\ delivered_parts tr = []
      /\ forallb (fun e => match e with EvOpen _ | EvSleep _ => false | _ => true end) tr
         = true).
Proof.
  intros Hrun.
  destruct (upload_loop_shape _ _ _ _ _ _ _ _ _ _ _ Hrun) as [Hf [s Hp]].
  split; [now exists s|].
  split; [exact (protocol_after_stop rm tr Idle s Hp)|].
  split.
  { destruct (uploads_follow_delivered _ _ _ _ _ _ Hf) as [n [Hn Hd]].
    exists n. unfold delivered_parts. rewrite Hd.
    repeat split; [exact Hn | now rewrite firstn_skipn]. }
  intros Hfresh Hover.
  pose proof (is_time_exceeded_fresh rm w Hfresh) as Hc. cbv zeta in Hc.
  rewrite Hover in Hc.
  split; [now rewrite Hc|].
  destruct chunks as [|chunk rest].
  - simpl in Hrun. unfold ret in Hrun. inversion Hrun; subst. repeat split.
  - cbn [upload_loop] in Hrun. unfold bind at 1 in Hrun. rewrite Hc in Hrun.
    unfold_monad. inversion Hrun; subst. repeat split.
Qed.

End LoopProperties.

(* ================================================================ *)
(** * The theorems at concrete inputs *)
(* ================================================================ *)

(** Part 2 of 3: the caption is the base name with its indicator. *)
Lemma current_caption_spec_witness :
  current_caption 1 3 "Daily build" "archive"
  = ("archive" ++ " (Part " ++ PyStr.str_of_nat 2 ++ "/" ++ PyStr.str_of_nat 3 ++ ")")%string.
Proof.
  refine (proj1 (proj2 (proj2
            (@current_caption_spec Z Scripted.world _ _ "Daily build" "archive" 3 1))) _).
  lia.
Defined.

(** Three parts, the second request is answered with status 429:
    two uploads, none for the third part. *)
Lemma upload_loop_abort_on_failure_witness :
  length (uploads (snd (Scripted.run_with [1; 5; 9]%Z
                          [Scripted.ok_response; Scripted.error_response] 0 3300))) = 2.
Proof.
  set (out := Scripted.run_with [1; 5; 9]%Z
                [Scripted.ok_response; Scripted.error_response] 0 3300).
  refine (proj1 (proj2 (proj2
            (upload_loop_abort_on_failure Scripted.poster "Daily build" "archive" 3
               Scripted.three_parts (Scripted.manager 0 3300)
               (Scripted.world0 [1; 5; 9]%Z [Scripted.ok_response; Scripted.error_response])
               (fst (fst out)) (snd (fst out)) (snd out)
               1 "/tmp/w/archive.7z.002" "archive \(Part 2/3\)" _ _)))).
  - vm_compute. reflexivity.
  - vm_compute. reflexivity.
Defined.

(** Ceiling 10 seconds, start backdated by 11 seconds: nothing is
    uploaded. *)
Lemma upload_loop_time_budget_witness :
  uploads (snd (Scripted.run_with [1000%Z] [] 989 10)) = []
  /\ delivered_parts (snd (Scripted.run_with [1000%Z] [] 989 10)) = [].
Proof.
  set (out := Scripted.run_with [1000%Z] [] 989 10).
  assert (Hrun : upload_loop Scripted.poster "Daily build" "archive" 3 0
                   Scripted.three_parts (Scripted.manager 989 10)
                   (Scripted.world0 [1000%Z] [])
                 = (fst (fst out), snd (fst out), snd out))
    by (vm_compute; reflexivity).
  destruct (proj2 (proj2 (proj2
              (upload_loop_time_budget _ _ _ _ _ _ _ _ _ _ Hrun))) eq_refl eq_refl)
    as [_ [Hu [Hd _]]].
  split; assumption.
Defined.

(** A source that is not a directory, and a compressor that exits
    with status 2. *)
Lemma create_multivolume_archive_failures_witness :
  (exists tr,
      create_multivolume_archive "/tmp/w/nope" "/tmp/w/archive.7z" 15
        (Scripted.world0 [] [])
      = (Ret [], Scripted.world0 [] [], tr))
  /\ (exists tr,
        create_multivolume_archive "/tmp/w/data" "/tmp/w/archive.7z" 15
          (Scripted.world_7z (Raise (CalledProcessError 2 "ERROR")) [] (Ret tt))
        = (Ret [], Scripted.world_7z (Raise (CalledProcessError 2 "ERROR")) [] (Ret tt), tr)).
Proof.
  split.
  - refine (proj1
              (create_multivolume_archive_failures "/tmp/w/nope" "/tmp/w/archive.7z" 15
                 (Scripted.world0 [] [])) _ _); reflexivity.
  - refine (proj1 (proj2
              (create_multivolume_archive_failures "/tmp/w/data" "/tmp/w/archive.7z" 15
                 (Scripted.world_7z (Raise (CalledProcessError 2 "ERROR")) [] (Ret tt))))
              (CalledProcessError 2 "ERROR") _ _ _ _); reflexivity.
Defined.

(** A single part [archive.7z.001] whose rename fails: the list keeps
    the suffixed path. *)
Lemma rename_single_part_spec_witness :
  exists info err,
    rename_single_part ["/tmp/w/archive.7z.001"] "/tmp/w/archive.7z"
      (Scripted.world_7z (Ret "") [] (Raise (OSError "busy")))
    = (Ret ["/tmp/w/archive.7z.001"],
       Scripted.world_7z (Ret "") [] (Raise (OSError "busy")),
       [EvLog INFO info; EvRename "/tmp/w/archive.7z.001" "/tmp/w/archive.7z";
        EvLog ERROR err]).
Proof.
  refine (proj2 (proj2
            (rename_single_part_spec ["/tmp/w/archive.7z.001"] "/tmp/w/archive.7z"
               (Scripted.world_7z (Ret "") [] (Raise (OSError "busy")))))
            (OSError "busy") _ _ _ _); reflexivity.
Defined.


(* ================================================================ *)
(** * Further properties of [escape_markdown_v2] *)
(* ================================================================ *)

Lemma remove_char_app (c : ascii) (a b : string) :
  remove_char c (a ++ b) = (remove_char c a ++ remove_char c b)%string.
Proof.
  induction a as [|x a IH]; [reflexivity|].
  simpl. destruct (Ascii.eqb x c); simpl; now rewrite IH.
Qed.

Lemma remove_backslash_escape_plain (run : string) :
  remove_char "\" (escape_plain run) = remove_char "\" run.
Proof.
  induction run as [|c rest IH]; [reflexivity|].
  simpl. destruct (in_escape_set c) eqn:E.
  - simpl. destruct (Ascii.eqb c "\") eqn:B.
    + apply Ascii.eqb_eq in B. subst c. discriminate.
    + now rewrite IH.
  - simpl. destruct (Ascii.eqb c "\"); now rewrite IH.
Qed.

Lemma remove_char_join (c : ascii) (sep : string) (runs : list string) :
  remove_char c (PyStr.join sep runs)
  = PyStr.join (remove_char c sep) (map (remove_char c) runs).
Proof.
  induction runs as [|r rs IH]; [reflexivity|].
  destruct rs as [|q qs]; [reflexivity|].
  rewrite (join_cons sep r (q :: qs)) by discriminate.
  cbn [map].
  rewrite (join_cons (remove_char c sep) (remove_char c r)
             (remove_char c q :: map (remove_char c) qs)) by discriminate.
  rewrite !remove_char_app. cbn [map] in IH. now rewrite IH.
Qed.

Lemma remove_backslash_alternate (plain : bool) (runs : list string) :
  map (remove_char "\") (alternate plain runs) = map (remove_char "\") runs.
Proof.
  revert plain. induction runs as [|r rs IH]; intros plain; [reflexivity|].
  simpl. rewrite IH. destruct plain; [now rewrite remove_backslash_escape_plain | reflexivity].
Qed.

Lemma count_remove_char (c d : ascii) (text : string) :
  c <> d -> PyStr.count (remove_char d text) c = PyStr.count text c.
Proof.
  intros Hne. induction text as [|x rest IH]; [reflexivity|].
  simpl. destruct (Ascii.eqb x d) eqn:D.
  - apply Ascii.eqb_eq in D. subst x.
    destruct (Ascii.eqb d c) eqn:C; [apply Ascii.eqb_eq in C; congruence|].
    exact IH.
  - simpl. now rewrite IH.
Qed.

(** X1.  [escape_markdown_v2] only inserts backslashes: with every
    backslash removed, the output and the input are the same text; so
    each character other than the backslash occurs as often in the
    output as in the input (backticks included). *)
Theorem escape_markdown_v2_only_adds_backslashes (text : string) :
  remove_char "\" (escape_markdown_v2 text) = remove_char "\" text
  /\ forall c : ascii,
       c <> "\"%char ->
       PyStr.count (escape_markdown_v2 text) c = PyStr.count text c.
Proof.
  assert (H : remove_char "\" (escape_markdown_v2 text) = remove_char "\" text).
  { rewrite escape_markdown_v2_alternate, remove_char_join, remove_backslash_alternate.
    rewrite <- remove_char_join.
    change "`" with (String backtick "").
    now rewrite join_split. }
  split; [exact H|].
  intros c Hc.
  rewrite <- (count_remove_char c "\" (escape_markdown_v2 text)) by assumption.
  rewrite H. now apply count_remove_char.
Qed.

Lemma escape_plain_clean (run : string) :
  mentions_escape_set run = false -> escape_plain run = run.
Proof.
  induction run as [|c rest IH]; [reflexivity|].
  simpl. intros H. apply orb_false_iff in H. destruct H as [Hc Hr].
  rewrite Hc. now rewrite IH.
Qed.

Lemma split_clean (text : string) (sep : ascii) :
  mentions_escape_set text = false ->
  Forall (fun run => mentions_escape_set run = false) (PyStr.split text sep).
Proof.
  induction text as [|c rest IH]; intros H.
  - repeat constructor.
  - simpl in H. apply orb_false_iff in H. destruct H as [Hc Hr].
    specialize (IH Hr). simpl.
    destruct (Ascii.eqb c sep).
    + constructor; [reflexivity | exact IH].
    + destruct (PyStr.split rest sep) as [|p ps].
      * constructor; [simpl; now rewrite Hc | constructor].
      * inversion IH; subst. constructor; [simpl; rewrite Hc; assumption | assumption].
Qed.

Lemma alternate_clean (plain : bool) (runs : list string) :
  Forall (fun run => mentions_escape_set run = false) runs ->
  alternate plain runs = runs.
Proof.
  revert plain. induction runs as [|r rs IH]; intros plain H; [reflexivity|].
  inversion H; subst. simpl. rewrite IH by assumption.
  destruct plain; [now rewrite escape_plain_clean | reflexivity].
Qed.

(** X2.  A text that holds no character of the escape set is returned
    as it is, whatever backticks it holds. *)
Theorem escape_markdown_v2_clean_text (text : string) :
  mentions_escape_set text = false ->
  escape_markdown_v2 text = text.
Proof.
  intros H.
  rewrite escape_markdown_v2_alternate.
  rewrite alternate_clean by (apply split_clean; exact H).
  apply (join_split text backtick).
Qed.

Lemma escape_markdown_v2_clean_text_witness :
  escape_markdown_v2 "Daily build `v1` ok" = "Daily build `v1` ok".
Proof.
  apply (escape_markdown_v2_clean_text "Daily build `v1` ok"). reflexivity.
Defined.

Lemma escape_plain_app (a b : string) :
  escape_plain (a ++ b) = (escape_plain a ++ escape_plain b)%string.
Proof.
  induction a as [|c a IH]; [reflexivity|].
  simpl. destruct (in_escape_set c); simpl; now rewrite IH.
Qed.

(** A text without backticks is one plain run. *)
Lemma escape_markdown_v2_no_backtick (text : string) :
  no_backtick text -> escape_markdown_v2 text = escape_plain text.
Proof.
  intros H. rewrite escape_markdown_v2_alternate.
  rewrite (split_free text backtick H). reflexivity.
Qed.

(** One verbatim span between two plain runs. *)
Lemma escape_markdown_v2_one_span (before span after : string) :
  no_backtick before -> no_backtick span -> no_backtick after ->
  escape_markdown_v2 (before ++ "`" ++ span ++ "`" ++ after)
  = (escape_plain before ++ "`" ++ span ++ "`" ++ escape_plain after)%string.
Proof.
  intros Hb Hs Ha.
  rewrite escape_markdown_v2_alternate.
  change (before ++ "`" ++ span ++ "`" ++ after)%string
    with (PyStr.join (String backtick "") [before; span; after]).
  rewrite split_join; [reflexivity | discriminate |].
  repeat constructor; assumption.
Qed.

Lemma digits_no_backtick (d : Decimal.uint) :
  PyStr.count (NilEmpty.string_of_uint d) backtick = 0.
Proof.
  induction d; simpl; auto.
Qed.

Lemma digits_escape_plain (d : Decimal.uint) :
  escape_plain (NilEmpty.string_of_uint d) = NilEmpty.string_of_uint d.
Proof.
  induction d; simpl; rewrite ?IHd; reflexivity.
Qed.

Lemma str_of_nat_no_backtick (n : nat) : no_backtick (PyStr.str_of_nat n).
Proof.
  unfold no_backtick, PyStr.str_of_nat, NilZero.string_of_uint.
  destruct (Nat.to_uint n) eqn:E; try reflexivity;
    rewrite <- E; try apply digits_no_backtick;
    rewrite E; apply digits_no_backtick.
Qed.

Lemma str_of_nat_escape_plain (n : nat) :
  escape_plain (PyStr.str_of_nat n) = PyStr.str_of_nat n.
Proof.
  unfold PyStr.str_of_nat, NilZero.string_of_uint.
  destruct (Nat.to_uint n); try reflexivity; apply digits_escape_plain.
Qed.

(** The three pieces of the full caption around its two backticks. *)
Lemma full_caption_pieces (base_text jalali_str utc_str channel_handle : string) :
  full_caption base_text jalali_str utc_str channel_handle
  = (((if PyStr.truthy base_text then base_text ++ newline else "")
      ++ newline ++ "Latest Update: ")
     ++ "`" ++ (jalali_str ++ " | " ++ utc_str ++ " UTC")
     ++ "`" ++ (newline ++ newline ++ channel_handle))%string.
Proof.
  unfold full_caption. cbn [filter]. rewrite !truthy_newline_prefix.
  destruct (PyStr.truthy base_text).
  - rewrite join_cons by discriminate. rewrite join_cons by discriminate.
    cbn [PyStr.join]. now rewrite !string_app_assoc.
  - rewrite join_cons by discriminate. cbn [PyStr.join].
    now rewrite !string_app_assoc.
Qed.

(** X3.  The caption posted with the first part, for a template, two
    timestamps and a channel handle without backticks: the timestamp
    segment between the two backticks reaches the transport exactly as
    it was formatted, and the text before it and after it (the part
    indicator included) is escaped as plain text. *)
Theorem first_caption_escaped
    (base_text jalali_str utc_str channel_handle output_archive_basename : string)
    (total_parts : nat) :
  no_backtick base_text -> no_backtick jalali_str ->
  no_backtick utc_str -> no_backtick channel_handle ->
  escape_markdown_v2
    (current_caption 0 total_parts
       (full_caption base_text jalali_str utc_str channel_handle)
       output_archive_basename)
  = (escape_plain ((if PyStr.truthy base_text then base_text ++ newline else "")
                   ++ newline ++ "Latest Update: ")
     ++ "`" ++ (jalali_str ++ " | " ++ utc_str ++ " UTC") ++ "`"
     ++ escape_plain (newline ++ newline ++ channel_handle
                      ++ (if Nat.ltb 1 total_parts
                          then " (Part 1/" ++ PyStr.str_of_nat total_parts ++ ")"
                          else "")))%string.
Proof.
  intros Hb Hj Hu Hh.
  assert (Hcap : current_caption 0 total_parts
                   (full_caption base_text jalali_str utc_str channel_handle)
                   output_archive_basename
                 = (full_caption base_text jalali_str utc_str channel_handle
                    ++ (if Nat.ltb 1 total_parts
                        then " (Part 1/" ++ PyStr.str_of_nat total_parts ++ ")"
                        else ""))%string).
  { unfold current_caption. simpl Nat.eqb. cbv iota.
    destruct (Nat.ltb 1 total_parts); [reflexivity | now rewrite string_app_empty_r]. }
  set (before := ((if PyStr.truthy base_text then base_text ++ newline else "")
                  ++ newline ++ "Latest Update: ")%string).
  set (span := (jalali_str ++ " | " ++ utc_str ++ " UTC")%string).
  set (after := (newline ++ newline ++ channel_handle
                 ++ (if Nat.ltb 1 total_parts
                     then " (Part 1/" ++ PyStr.str_of_nat total_parts ++ ")"
                     else ""))%string).
  assert (Htext : (full_caption base_text jalali_str utc_str channel_handle
                   ++ (if Nat.ltb 1 total_parts
                       then " (Part 1/" ++ PyStr.str_of_nat total_parts ++ ")"
                       else ""))%string
                  = (before ++ "`" ++ span ++ "`" ++ after)%string).
  { rewrite full_caption_pieces. unfold before, span, after.
    rewrite !string_app_assoc. reflexivity. }
  rewrite Hcap, Htext.
  apply (escape_markdown_v2_one_span before span after).
  - unfold no_backtick, before. rewrite count_app.
    destruct (PyStr.truthy base_text); [rewrite count_app, Hb|]; reflexivity.
  - unfold no_backtick, span. rewrite !count_app, Hj, Hu. reflexivity.
  - unfold no_backtick, after. rewrite !count_app, Hh.
    destruct (Nat.ltb 1 total_parts); [|reflexivity].
    rewrite !count_app, (str_of_nat_no_backtick total_parts). reflexivity.
Qed.

Lemma first_caption_escaped_witness :
  escape_markdown_v2
    (current_caption 0 3
       (full_caption "Daily build." "1404/05/03 13:30:00" "2025-07-25 10:00:00" "@my_channel")
       "archive")
  = (escape_plain ((if PyStr.truthy "Daily build." then "Daily build." ++ newline else "")
                   ++ newline ++ "Latest Update: ")
     ++ "`" ++ ("1404/05/03 13:30:00" ++ " | " ++ "2025-07-25 10:00:00" ++ " UTC") ++ "`"
     ++ escape_plain (newline ++ newline ++ "@my_channel"
                      ++ (if Nat.ltb 1 3
                          then " (Part 1/" ++ PyStr.str_of_nat 3 ++ ")"
                          else "")))%string.
Proof.
  apply (first_caption_escaped "Daily build." "1404/05/03 13:30:00" "2025-07-25 10:00:00"
           "@my_channel" "archive" 3); reflexivity.
Defined.

(** X4.  The caption posted with a later part, for an archive name
    without backticks: the archive name escaped as plain text,
    followed by the indicator with its two parentheses escaped. *)
Theorem later_caption_escaped (full output_archive_basename : string)
    (i total_parts : nat) :
  0 < i -> no_backtick output_archive_basename ->
  escape_markdown_v2 (current_caption i total_parts full output_archive_basename)
  = (escape_plain output_archive_basename ++ " \(Part " ++ PyStr.str_of_nat (i + 1)
       ++ "/" ++ PyStr.str_of_nat total_parts ++ "\)")%string.
Proof.
  intros Hi Hb.
  unfold current_caption. destruct i as [|i]; [lia|]. simpl Nat.eqb. cbv iota.
  rewrite escape_markdown_v2_no_backtick.
  - rewrite !escape_plain_app, !str_of_nat_escape_plain. reflexivity.
  - unfold no_backtick. rewrite !count_app, Hb.
    rewrite (str_of_nat_no_backtick (S i + 1)), (str_of_nat_no_backtick total_parts).
    reflexivity.
Qed.

Lemma later_caption_escaped_witness :
  escape_markdown_v2 (current_caption 1 3 "Daily build" "my_archive")
  = (escape_plain "my_archive" ++ " \(Part " ++ PyStr.str_of_nat (1 + 1)
       ++ "/" ++ PyStr.str_of_nat 3 ++ "\)")%string.
Proof.
  apply (later_caption_escaped "Daily build" "my_archive" 1 3); [lia | reflexivity].
Defined.

(* ================================================================ *)
(** * Further properties of [RuntimeManager] *)
(* ================================================================ *)

Section MoreGuardProperties.
Context {num W : Type} {NUM : PyNum num} {OSI : OS num W}.

Lemma check_traces_tripped (rm : RuntimeManager) (ws : list W) :
  time_exceeded rm = true -> check_traces rm ws = [].
Proof.
  intros H. induction ws as [|w ws IH]; [reflexivity|].
  simpl. rewrite is_time_exceeded_tripped by assumption. exact IH.
Qed.

(** X5.  Over any number of successive calls of [is_time_exceeded] on
    one manager, the warning is logged at most once, the clock is read
    at most once per call, and a manager that has tripped performs no
    effect at all. *)
Theorem is_time_exceeded_warns_once (rm : RuntimeManager) (ws : list W) :
  length (filter is_warning (check_traces rm ws)) <= 1
  /\ length (filter is_clock (check_traces rm ws)) <= length ws
  /\ (time_exceeded rm = true -> check_traces rm ws = []).
Proof.
  split; [|split; [|apply check_traces_tripped]].
  - revert rm. induction ws as [|w ws IH]; intros rm; [simpl; lia|].
    simpl. destruct (time_exceeded rm) eqn:E.
    + rewrite is_time_exceeded_tripped by assumption.
      rewrite check_traces_tripped by assumption. simpl. lia.
    + rewrite is_time_exceeded_fresh by assumption. cbv zeta.
      destruct (py_gt _ _) as [[|]|e].
      * rewrite check_traces_tripped by reflexivity. simpl. lia.
      * simpl. apply IH.
      * simpl. lia.
  - revert rm. induction ws as [|w ws IH]; intros rm; [simpl; lia|].
    simpl. destruct (time_exceeded rm) eqn:E.
    + rewrite is_time_exceeded_tripped by assumption.
      rewrite check_traces_tripped by assumption. simpl. lia.
    + rewrite is_time_exceeded_fresh by assumption. cbv zeta.
      destruct (py_gt _ _) as [[|]|e].
      * rewrite check_traces_tripped by reflexivity. simpl. lia.
      * simpl. specialize (IH rm). lia.
      * simpl. lia.
Qed.

(** X6.  When the configured ceiling is not a number (a JSON string,
    null, list or object), the first check of an untripped manager
    reads the clock and raises [TypeError]; the upload loop over a
    non-empty part list then raises at its first check and posts
    nothing. *)
Theorem is_time_exceeded_bad_ceiling (rm : RuntimeManager) (w : W)
    (poster : TelegramPoster) (full output_archive_basename : string)
    (total_parts i : nat) (chunk : Path) (rest : list Path) :
  time_exceeded rm = false ->
  not_comparable (max_seconds rm) ->
  exists msg,
    is_time_exceeded rm w
    = (Raise (TypeError msg), snd (time_time w), [EvClock (fst (time_time w))])
    /\ upload_loop poster full output_archive_basename total_parts i (chunk :: rest) rm w
       = (Raise (TypeError msg), snd (time_time w), [EvClock (fst (time_time w))]).
Proof.
  intros Hfresh Hbad.
  pose proof (is_time_exceeded_fresh rm w Hfresh) as Hc. cbv zeta in Hc.
  assert (Hgt : exists msg, py_gt (num_sub (fst (time_time w)) (start_time rm)) (max_seconds rm)
                            = Raise (TypeError msg)).
  { destruct (max_seconds rm); simpl in Hbad; try contradiction; eexists; reflexivity. }
  destruct Hgt as [msg Hgt]. rewrite Hgt in Hc.
  exists msg. split; [exact Hc|].
  cbn [upload_loop]. unfold bind at 1. rewrite Hc. reflexivity.
Qed.

End MoreGuardProperties.

(** The ceiling is configured as the JSON string ["3300"]. *)
Lemma is_time_exceeded_bad_ceiling_witness :
  exists msg,
    is_time_exceeded
      {| start_time := 0%Z; max_seconds := JStr "3300"; time_exceeded := false |}
      (Scripted.world0 [7%Z] [])
    = (Raise (TypeError msg), snd (time_time (Scripted.world0 [7%Z] [])),
       [EvClock (fst (time_time (Scripted.world0 [7%Z] [])))])
    /\ upload_loop Scripted.poster "Daily build" "archive" 3 0
         ("/tmp/w/archive.7z.001" :: ["/tmp/w/archive.7z.002"])
         {| start_time := 0%Z; max_seconds := JStr "3300"; time_exceeded := false |}
         (Scripted.world0 [7%Z] [])
       = (Raise (TypeError msg), snd (time_time (Scripted.world0 [7%Z] [])),
          [EvClock (fst (time_time (Scripted.world0 [7%Z] [])))]).
Proof.
  apply (is_time_exceeded_bad_ceiling
           {| start_time := 0%Z; max_seconds := JStr "3300"; time_exceeded := false |}
           (Scripted.world0 [7%Z] []) Scripted.poster "Daily build" "archive" 3 0
           "/tmp/w/archive.7z.001" ["/tmp/w/archive.7z.002"]).
  - reflexivity.
  - exact I.
Defined.

(* ================================================================ *)
(** * Further properties of [create_multivolume_archive] *)
(* ================================================================ *)

Lemma insert_sorted_perm (p : Path) (ps : list Path) :
  Permutation (p :: ps) (insert_sorted p ps).
Proof.
  induction ps as [|q qs IH]; [apply Permutation_refl|].
  simpl. destruct (String.leb p q); [apply Permutation_refl|].
  apply perm_trans with (q :: p :: qs); [apply perm_swap|].
  now apply perm_skip.
Qed.

Lemma sorted_perm (ps : list Path) : Permutation ps (sorted ps).
Proof.
  induction ps as [|p ps IH]; [apply Permutation_refl|].
  unfold sorted in *. simpl.
  apply perm_trans with (p :: fold_right insert_sorted [] ps).
  - now apply perm_skip.
  - apply insert_sorted_perm.
Qed.

Lemma insert_sorted_ordered (p : Path) (ps : list Path) :
  Sorted path_le ps -> Sorted path_le (insert_sorted p ps).
Proof.
  induction ps as [|q qs IH]; intros Hs.
  - repeat constructor.
  - simpl. destruct (String.leb p q) eqn:E.
    + constructor; [exact Hs | constructor; exact E].
    + assert (Hqp : path_le q p).
      { destruct (String.leb_total p q) as [H|H]; [congruence | exact H]. }
      inversion Hs as [|? ? Hqs Hhd]; subst.
      constructor; [apply IH; exact Hqs|].
      destruct qs as [|r rs]; simpl.
      * constructor. exact Hqp.
      * destruct (String.leb p r); constructor; [exact Hqp|].
        now inversion Hhd.
Qed.

Lemma sorted_ordered (ps : list Path) : Sorted path_le (sorted ps).
Proof.
  induction ps as [|p ps IH]; [constructor|].
  unfold sorted in *. simpl. now apply insert_sorted_ordered.
Qed.

Section MoreArchiveProperties.
Context {num W : Type} {NUM : PyNum num} {OSI : OS num W}.

(** What a non-empty answer of the archive builder implies. *)
Lemma create_multivolume_archive_success_cases
    (directory_to_zip archive_output_path : Path) (chunk_size_mb : Z) (w w' : W)
    (parts : list Path) (tr : list (event num)) :
  create_multivolume_archive directory_to_zip archive_output_path chunk_size_mb w
  = (Ret parts, w', tr) ->
  parts <> [] ->
  let command := command_7z chunk_size_mb archive_output_path directory_to_zip in
  let found := path_glob (path_parent archive_output_path)
                 (path_name archive_output_path ++ ".*")%string w' in
  path_is_dir directory_to_zip w = true
  /\ (exists out, subprocess_run command w = (Ret out, w'))
  /\ filter is_external tr = [EvRun command]
  /\ ((found <> [] /\ parts = sorted found)
      \/ (found = [] /\ path_exists archive_output_path w' = true
          /\ parts = [archive_output_path])).
Proof.
  intros H Hne command found. subst found.
  unfold create_multivolume_archive in H. fold command in H.
  unfold run_7z in H. unfold_monad. cbv beta in H.
  destruct (path_is_dir_error directory_to_zip w); cbv beta iota in H; [discriminate|].
  destruct (path_is_dir directory_to_zip w) eqn:Hdir; cbn [negb] in H; cbv beta iota in H.
  2:{ inversion H; subst. congruence. }
  destruct (subprocess_run command w) as [[out|e] w1] eqn:Hsub; cbv beta iota in H.
  2:{ destruct (is_FileNotFoundError e); [inversion H; subst; congruence|].
      destruct (is_CalledProcessError e); inversion H; subst; congruence. }
  destruct (path_glob_error (path_parent archive_output_path)
              (path_name archive_output_path ++ ".*") w1); cbv beta iota in H;
    [discriminate|].
  destruct (is_empty (sorted (path_glob (path_parent archive_output_path)
              (path_name archive_output_path ++ ".*") w1))) eqn:Hempty.
  - destruct (path_exists_error archive_output_path w1); cbv beta iota in H;
      [discriminate|].
    destruct (path_exists archive_output_path w1) eqn:Hex;
      inversion H; subst; [|congruence].
    split; [reflexivity|]. split; [now exists out|]. split; [reflexivity|].
    right. split; [|split; [exact Hex | reflexivity]].
    apply sorted_nil_inv.
    destruct (sorted _); [reflexivity | discriminate].
  - inversion H; subst.
    split; [reflexivity|]. split; [now exists out|]. split; [reflexivity|].
    left. split; [|reflexivity].
    intros E. rewrite E in Hempty. discriminate.
Qed.

(** X7.  A non-empty answer of [create_multivolume_archive] means
    success: the source was a directory, the compressor was run once
    (the only effect besides log records) and returned normally, and
    the answer is either the sorted list of the files the glob found,
    or, when the glob found none, the bare output path, which then
    exists. *)
Theorem create_multivolume_archive_success
    (directory_to_zip archive_output_path : Path) (chunk_size_mb : Z) (w w' : W)
    (parts : list Path) (tr : list (event num)) :
  create_multivolume_archive directory_to_zip archive_output_path chunk_size_mb w
  = (Ret parts, w', tr) ->
  parts <> [] ->
  let command := command_7z chunk_size_mb archive_output_path directory_to_zip in
  let found := path_glob (path_parent archive_output_path)
                 (path_name archive_output_path ++ ".*")%string w' in
  path_is_dir directory_to_zip w = true
  /\ (exists out, subprocess_run command w = (Ret out, w'))
  /\ filter is_external tr = [EvRun command]
  /\ ((found <> [] /\ parts = sorted found)
      \/ (found = [] /\ path_exists archive_output_path w' = true
          /\ parts = [archive_output_path])).
Proof.
  intros. eapply create_multivolume_archive_success_cases; eassumption.
Qed.

(** X8.  The parts [create_multivolume_archive] returns are in
    ascending order of their paths, and when the glob found files they
    are exactly those files, each once. *)
Theorem create_multivolume_archive_ordered
    (directory_to_zip archive_output_path : Path) (chunk_size_mb : Z) (w w' : W)
    (parts : list Path) (tr : list (event num)) :
  create_multivolume_archive directory_to_zip archive_output_path chunk_size_mb w
  = (Ret parts, w', tr) ->
  let found := path_glob (path_parent archive_output_path)
                 (path_name archive_output_path ++ ".*")%string w' in
  Sorted path_le parts
  /\ (found <> [] -> parts <> [] -> Permutation found parts).
Proof.
  intros H found.
  destruct parts as [|p ps].
  - split; [constructor | intros _ Hne; congruence].
  - destruct (create_multivolume_archive_success_cases _ _ _ _ _ _ _ H ltac:(discriminate))
      as [_ [_ [_ [[Hf Hp]|[Hf [_ Hp]]]]]].
    + rewrite Hp. split; [apply sorted_ordered | intros _ _; apply sorted_perm].
    + rewrite Hp. split; [repeat constructor | intros Hne; contradiction].
Qed.

(** X9.  [rename_single_part] never changes the number of parts: when
    it returns, its answer is the list it was given or the bare output
    path alone (and then the list it was given had one part), and its
    only effect besides log records is at most one rename, of that
    part to the bare output path. *)
Theorem rename_single_part_keeps_count (archive_chunks : list Path)
    (archive_output_path : Path) (w w' : W) (parts : list Path) (tr : list (event num)) :
  rename_single_part archive_chunks archive_output_path w = (Ret parts, w', tr) ->
  length parts = length archive_chunks
  /\ (parts = archive_chunks \/ parts = [archive_output_path])
  /\ (filter is_external tr = []
      \/ filter is_external tr = [EvRename (hd "" archive_chunks) archive_output_path]).
Proof.
  unfold rename_single_part. unfold_monad.
  destruct (Nat.eqb (length archive_chunks) 1
            && PyStr.endswith (path_name (hd "" archive_chunks)) ".001") eqn:Hc.
  - apply andb_true_iff in Hc. destruct Hc as [Hlen _]. apply Nat.eqb_eq in Hlen.
    destruct (path_rename (hd "" archive_chunks) archive_output_path w) as [[[]|e] w1].
    + intros H. inversion H; subst. simpl. rewrite Hlen. auto.
    + simpl. destruct (is_OSError e); intros H; inversion H; subst. simpl. auto.
  - intros H. inversion H; subst. simpl. auto.
Qed.

End MoreArchiveProperties.

Lemma create_multivolume_archive_success_witness :
  path_is_dir "/tmp/w/data"
    (Scripted.world_7z (Ret "Everything is Ok")
       ["/tmp/w/archive.7z.002"; "/tmp/w/archive.7z.001"] (Ret tt)) = true.
Proof.
  set (w := Scripted.world_7z (Ret "Everything is Ok")
              ["/tmp/w/archive.7z.002"; "/tmp/w/archive.7z.001"] (Ret tt)).
  set (out := create_multivolume_archive "/tmp/w/data" "/tmp/w/archive.7z" 15 w).
  refine (proj1 (create_multivolume_archive_success "/tmp/w/data" "/tmp/w/archive.7z" 15
                   w (snd (fst out))
                   ["/tmp/w/archive.7z.001"; "/tmp/w/archive.7z.002"] (snd out) _ _)).
  - vm_compute. reflexivity.
  - discriminate.
Defined.

Lemma create_multivolume_archive_ordered_witness :
  Sorted path_le ["/tmp/w/archive.7z.001"; "/tmp/w/archive.7z.002"].
Proof.
  set (w := Scripted.world_7z (Ret "Everything is Ok")
              ["/tmp/w/archive.7z.002"; "/tmp/w/archive.7z.001"] (Ret tt)).
  set (out := create_multivolume_archive "/tmp/w/data" "/tmp/w/archive.7z" 15 w).
  refine (proj1 (create_multivolume_archive_ordered "/tmp/w/data" "/tmp/w/archive.7z" 15
                   w (snd (fst out))
                   ["/tmp/w/archive.7z.001"; "/tmp/w/archive.7z.002"] (snd out) _)).
  vm_compute. reflexivity.
Defined.

Lemma rename_single_part_keeps_count_witness :
  length ["/tmp/w/archive.7z"] = length ["/tmp/w/archive.7z.001"].
Proof.
  set (w := Scripted.world_7z (Ret "") [] (Ret tt)).
  set (out := rename_single_part ["/tmp/w/archive.7z.001"] "/tmp/w/archive.7z" w).
  refine (proj1 (rename_single_part_keeps_count ["/tmp/w/archive.7z.001"]
                   "/tmp/w/archive.7z" w (snd (fst out)) ["/tmp/w/archive.7z"]
                   (snd out) _)).
  vm_compute. reflexivity.
Defined.

(* ================================================================ *)
(** * Further properties of [send_document] and of the upload loop *)
(* ================================================================ *)

Ltac event_kind :=
  first [ left; reflexivity
        | right; left; reflexivity
        | right; right; do 2 eexists; split;
          [first [eassumption | reflexivity] | reflexivity] ].

Ltac events_done :=
  simpl; split; [repeat (apply Forall_cons; [event_kind|]); apply Forall_nil | lia].

Section MoreLoopProperties.
Context {num W : Type} {NUM : PyNum num} {OSI : OS num W}.

(** Every effect of [send_document] is a log record, the opening of
    the file, or the request for that file; there is at most one
    request. *)
Lemma send_document_events (self : TelegramPoster) (file_path : Path)
    (text : string) (w : W) :
  forall r w' tr,
    send_document self file_path text w = (r, w', tr) ->
    Forall (fun e =>
              is_log e = true
              \/ e = EvOpen file_path
              \/ exists timeout answer,
                   configured_timeout self = Ret timeout
                   /\ e = document_request self file_path text timeout answer) tr
    /\ length (filter is_post tr) <= 1.
Proof.
  unfold send_document, raise_for_status, configured_timeout, document_request.
  unfold_monad. cbv beta.
  destruct (path_exists file_path w); cbn [negb]; cbv beta iota.
  2:{ intros r w' tr H. inversion H; subst. events_done. }
  destruct (open_rb file_path w) as [[[]|e] w1].
  2:{ destruct e as [m|m|c m|m [resp|]|m|m|m]; intros r w' tr H; inversion H; subst;
        events_done. }
  destruct (dict_get (poster_config self) "runtime" (JDict [])) as [runtime|e].
  2:{ destruct e as [m|m|c m|m [resp|]|m|m|m]; intros r w' tr H; inversion H; subst;
        events_done. }
  destruct (dict_get runtime "request_timeout" (JNum (num_of_Z 120))) as [timeout|e] eqn:Ht.
  2:{ destruct e as [m|m|c m|m [resp|]|m|m|m]; intros r w' tr H; inversion H; subst;
        events_done. }
  destruct (requests_post _ _ _ _ w1) as [[resp|e] w2] eqn:Hpost.
  - destruct ((400 <=? status_code resp)%Z && (status_code resp <? 600)%Z) eqn:Hst;
      intros r w' tr H; inversion H; subst;
      events_done.
  - destruct e as [m|m|c m|m [resp|]|m|m|m]; intros r w' tr H; inversion H; subst;
      events_done.
Qed.

(** X10.  Whatever [send_document] does, it posts at most one request,
    and a request it posts goes to [<api_url>/sendDocument] with the
    configured channel as chat id, the escaped caption, the parse mode
    [MarkdownV2], the file under its final path component as name with
    the 7z media type, and the configured timeout (120 when the
    configuration has none). *)
Theorem send_document_request (self : TelegramPoster) (file_path : Path)
    (text : string) (w w' : W) (r : result bool) (tr : list (event num))
    (url : string) (data : payload num) (files : document)
    (timeout : json num) (answer : result response) :
  send_document self file_path text w = (r, w', tr) ->
  In (EvPost url data files timeout answer) tr ->
  url = (api_url self ++ "/sendDocument")%string
  /\ data = {| chat_id := channel_id self;
               caption := escape_markdown_v2 text;
               parse_mode := "MarkdownV2" |}
  /\ files = {| doc_name := path_name file_path;
                doc_file := file_path;
                doc_mime := "application/x-7z-compressed" |}
  /\ configured_timeout self = Ret timeout
  /\ length (filter is_post tr) <= 1.
Proof.
  intros H Hin.
  destruct (send_document_events _ _ _ _ _ _ _ H) as [Hall Hone].
  rewrite Forall_forall in Hall.
  destruct (Hall _ Hin) as [Hlog|[Hopen|[timeout' [answer' [Ht He]]]]].
  - discriminate.
  - discriminate.
  - unfold document_request in He. inversion He; subst. repeat split; assumption.
Qed.

(** X11.  When the file exists and opens, the timeout can be read and
    a response arrives, [send_document] answers [True] exactly when
    the status code is outside 400..599: informational, success and
    redirection codes all count as delivered. *)
Theorem send_document_status (self : TelegramPoster) (file_path : Path)
    (text : string) (w w1 w2 : W) (timeout : json num) (resp : response) :
  path_exists file_path w = true ->
  open_rb file_path w = (Ret tt, w1) ->
  configured_timeout self = Ret timeout ->
  requests_post (api_url self ++ "/sendDocument")%string
    {| chat_id := channel_id self;
       caption := escape_markdown_v2 text;
       parse_mode := "MarkdownV2" |}
    {| doc_name := path_name file_path;
       doc_file := file_path;
       doc_mime := "application/x-7z-compressed" |}
    timeout w1 = (Ret resp, w2) ->
  fst (send_document self file_path text w)
  = (Ret ((status_code resp <? 400)%Z || (600 <=? status_code resp)%Z), w2).
Proof.
  intros Hex Hopen Ht Hpost.
  unfold configured_timeout in Ht.
  unfold send_document, raise_for_status. unfold_monad. cbv beta.
  rewrite Hex. cbn [negb]. cbv beta iota. rewrite Hopen. cbv beta iota.
  destruct (dict_get (poster_config self) "runtime" (JDict [])) as [runtime|e];
    [|discriminate].
  rewrite Ht. cbv beta iota. rewrite Hpost. cbv beta iota.
  destruct (400 <=? status_code resp)%Z eqn:A; destruct (status_code resp <? 600)%Z eqn:B;
    simpl; f_equal; f_equal;
    destruct (status_code resp <? 400)%Z eqn:C; destruct (600 <=? status_code resp)%Z eqn:D;
    try reflexivity; lia.
Qed.

(** X12.  An exception raised while opening the file that is not a
    [RequestException] (a [PermissionError], say) is not turned into
    the answer [False]: [send_document] raises it, nothing is posted,
    and an upload loop that had cleared the time check raises it too
    instead of logging the failure of the part. *)
Theorem send_document_propagates (self : TelegramPoster) (file_path : Path)
    (text : string) (w w1 : W) (e : exn) :
  path_exists file_path w = true ->
  open_rb file_path w = (Raise e, w1) ->
  is_RequestException e = false ->
  (exists info,
     send_document self file_path text w
     = (Raise e, w1, [EvLog INFO info; EvOpen file_path]))
  /\ (forall full output_archive_basename total_parts i rest rm w0 t1,
        text = current_caption i total_parts full output_archive_basename ->
        is_time_exceeded rm w0 = (Ret (false, rm), w, t1) ->
        exists info,
          upload_loop self full output_archive_basename total_parts i
            (file_path :: rest) rm w0
          = (Raise e, w1, t1 ++ [EvLog INFO info; EvOpen file_path])).
Proof.
  intros Hex Hopen He.
  assert (Hsend : exists info,
             send_document self file_path text w
             = (Raise e, w1, [EvLog INFO info; EvOpen file_path])).
  { unfold send_document. unfold_monad. cbv beta.
    rewrite Hex. cbn [negb]. cbv beta iota. rewrite Hopen. cbv beta iota.
    destruct e; try discriminate; eexists; reflexivity. }
  split; [exact Hsend|].
  intros full base total_parts i rest rm w0 t1 -> Hcheck.
  destruct Hsend as [info Hsend]. exists info.
  cbn [upload_loop]. unfold bind at 1. rewrite Hcheck. cbv beta iota.
  unfold bind at 1. rewrite Hsend. reflexivity.
Qed.

Lemma delivered_parts_app (t1 t2 : list (event num)) :
  delivered_parts (t1 ++ t2) = delivered_parts t1 ++ delivered_parts t2.
Proof.
  unfold delivered_parts. now rewrite uploads_app, filter_app, map_app.
Qed.

Lemma guard_trace_quiet (rm : RuntimeManager) (w : W) :
  forall r w1 t1,
    is_time_exceeded rm w = (r, w1, t1) ->
    filter is_sleep t1 = [] /\ delivered_parts t1 = [].
Proof.
  intros r w1 t1. destruct (time_exceeded rm) eqn:E.
  - rewrite is_time_exceeded_tripped by assumption. intros H. inversion H; subst. now split.
  - rewrite is_time_exceeded_fresh by assumption. cbv zeta.
    destruct (py_gt _ _) as [[|]|e]; intros H; inversion H; subst; now split.
Qed.

Lemma send_trace_quiet (self : TelegramPoster) (file_path : Path) (text : string) (w : W) :
  forall r w2 t2,
    send_document self file_path text w = (r, w2, t2) ->
    filter is_sleep t2 = []
    /\ delivered_parts t2 = match r with Ret true => [file_path] | _ => [] end.
Proof.
  intros r w2 t2 H. split.
  - destruct (send_document_events _ _ _ _ _ _ _ H) as [Hall _]. clear H.
    induction Hall as [|e t Hx Hall IH]; [reflexivity|].
    simpl. destruct Hx as [Hl|[->|[timeout [answer [_ ->]]]]].
    + destruct e; try discriminate. exact IH.
    + exact IH.
    + exact IH.
  - set (rm := {| start_time := num_of_Z 0; max_seconds := JNull; time_exceeded := false |}).
    unfold delivered_parts.
    destruct (send_document_shape rm _ _ _ _ _ _ _ H) as [[Hu [Hne _]]|[ok [Hu [Hok _]]]].
    + rewrite Hu. simpl. destruct r as [[|]|e]; [congruence | reflexivity | reflexivity].
    + rewrite Hu. simpl. destruct ok.
      * destruct Hok as [_ Hok]. rewrite (Hok eq_refl). reflexivity.
      * destruct r as [[|]|e]; try reflexivity.
        destruct Hok as [Hok _]. discriminate (Hok eq_refl).
Qed.

Lemma upload_loop_sleeps (poster : TelegramPoster)
    (full output_archive_basename : string) (total_parts : nat) (chunks : list Path) :
  forall (i : nat) (rm : RuntimeManager) (w : W) r w' tr,
    upload_loop poster full output_archive_basename total_parts i chunks rm w
    = (r, w', tr) ->
    filter is_sleep tr
    = repeat (EvSleep 3) (Nat.min (length (delivered_parts tr)) (total_parts - 1 - i)).
Proof.
  induction chunks as [|chunk rest IH]; intros i rm w r w' tr H.
  - simpl in H. unfold ret in H. inversion H; subst. reflexivity.
  - cbn [upload_loop] in H. unfold bind at 1 in H.
    destruct (is_time_exceeded rm w) as [[[[exceeded rm1]|e] w1] t1] eqn:Hc;
      destruct (guard_trace_quiet _ _ _ _ _ Hc) as [Hs1 Hd1].
    2:{ inversion H; subst. now rewrite Hs1, Hd1. }
    destruct exceeded.
    + unfold_monad. inversion H; subst.
      now rewrite filter_app, delivered_parts_app, Hs1, Hd1.
    + unfold bind at 1 in H.
      destruct (send_document poster chunk
                  (current_caption i total_parts full output_archive_basename) w1)
        as [[[sent|e] w2] t2] eqn:Hs;
        destruct (send_trace_quiet _ _ _ _ _ _ _ Hs) as [Hs2 Hd2].
      2:{ inversion H; subst.
          now rewrite filter_app, delivered_parts_app, Hs1, Hd1, Hs2, Hd2. }
      destruct sent; cbn [negb] in H.
      * unfold bind at 1 in H.
        destruct (Nat.ltb (i + 1) total_parts) eqn:Hlt.
        -- unfold_monad.
           destruct (upload_loop poster full output_archive_basename total_parts
                       (S i) rest _ (time_sleep 3 w2)) as [[r3 w3] t3] eqn:Hl.
           inversion H; subst. apply IH in Hl.
           change (EvLog INFO "Waiting 3 seconds before sending next part..."
                   :: EvSleep 3 :: t3)
             with ([EvLog INFO "Waiting 3 seconds before sending next part...";
                    @EvSleep num 3] ++ t3).
           rewrite !filter_app, !delivered_parts_app, Hs1, Hd1, Hs2, Hd2, Hl.
           apply Nat.ltb_lt in Hlt. simpl.
           replace (total_parts - 1 - i) with (S (total_parts - 1 - S i)) by lia.
           reflexivity.
        -- unfold_monad.
           destruct (upload_loop poster full output_archive_basename total_parts
                       (S i) rest _ w2) as [[r3 w3] t3] eqn:Hl.
           inversion H; subst. apply IH in Hl.
           rewrite !filter_app, !delivered_parts_app, Hs1, Hd1, Hs2, Hd2, Hl.
           apply Nat.ltb_ge in Hlt. simpl.
           replace (total_parts - 1 - S i) with 0 by lia.
           replace (total_parts - 1 - i) with 0 by lia.
           rewrite !Nat.min_0_r. reflexivity.
      * unfold_monad. inversion H; subst.
        now rewrite !filter_app, !delivered_parts_app, Hs1, Hd1, Hs2, Hd2.
Qed.

(** X13.  Pacing of the upload loop.  Every pause of a run lasts 3
    seconds, and the number of pauses is the number of delivered parts
    or the number of parts minus one, whichever is smaller: one pause
    after each delivered part except the last of the list. *)
Theorem upload_loop_pacing (poster : TelegramPoster)
    (full output_archive_basename : string) (chunks : list Path)
    (rm : RuntimeManager) (w : W) r w' tr :
  upload_loop poster full output_archive_basename (length chunks) 0 chunks rm w
  = (r, w', tr) ->
  filter is_sleep tr
  = repeat (EvSleep 3) (Nat.min (length (delivered_parts tr)) (length chunks - 1))
  /\ (delivered_parts tr = chunks ->
      length (filter is_sleep tr) = length chunks - 1).
Proof.
  intros H. apply upload_loop_sleeps in H.
  rewrite Nat.sub_0_r in H. split; [exact H|].
  intros Hall. rewrite H, repeat_length, Hall. lia.
Qed.

End MoreLoopProperties.

(** The request posted for the first part. *)
Lemma send_document_request_witness :
  "https://api.telegram.org/botTOKEN/sendDocument"
  = (api_url Scripted.poster ++ "/sendDocument")%string.
Proof.
  set (w := Scripted.world0 [] [Scripted.ok_response]).
  set (out := send_document Scripted.poster "/tmp/w/archive.7z.001" "Daily build." w).
  refine (proj1 (send_document_request Scripted.poster "/tmp/w/archive.7z.001"
                   "Daily build." w (snd (fst out)) (fst (fst out)) (snd out)
                   "https://api.telegram.org/botTOKEN/sendDocument"
                   {| chat_id := JStr "@channel"; caption := "Daily build\.";
                      parse_mode := "MarkdownV2" |}
                   {| doc_name := "archive.7z.001"; doc_file := "/tmp/w/archive.7z.001";
                      doc_mime := "application/x-7z-compressed" |}
                   (JNum 120%Z) Scripted.ok_response _ _)).
  - vm_compute. reflexivity.
  - vm_compute. right. right. left. reflexivity.
Defined.

(** A response with status 304 counts as delivered. *)
Lemma send_document_status_witness :
  fst (send_document Scripted.poster "/tmp/w/archive.7z.001" "Daily build."
         (Scripted.world0 [] [Ret {| status_code := 304; response_text := "" |}]))
  = (Ret true, Scripted.world0 [] []).
Proof.
  apply (send_document_status Scripted.poster "/tmp/w/archive.7z.001" "Daily build."
           (Scripted.world0 [] [Ret {| status_code := 304; response_text := "" |}])
           (Scripted.world0 [] [Ret {| status_code := 304; response_text := "" |}])
           (Scripted.world0 [] []) (JNum 120%Z)
           {| status_code := 304; response_text := "" |}); reflexivity.
Defined.

(** A file that cannot be opened. *)
Lemma send_document_propagates_witness :
  exists info,
    send_document Scripted.poster "/tmp/w/archive.7z.001" "Daily build." tt
    = (Raise (OSError "Permission denied"), tt,
       [EvLog INFO info; EvOpen "/tmp/w/archive.7z.001"]).
Proof.
  refine (proj1 (send_document_propagates Scripted.poster "/tmp/w/archive.7z.001"
                   "Daily build." tt tt (OSError "Permission denied") _ _ _));
    reflexivity.
Defined.

(** Three parts, all delivered: two pauses. *)
Lemma upload_loop_pacing_witness :
  length (filter is_sleep
            (snd (Scripted.run_with [1; 5; 9]%Z
                    [Scripted.ok_response; Scripted.ok_response; Scripted.ok_response]
                    0 3300)))
  = 3 - 1.
Proof.
  set (out := Scripted.run_with [1; 5; 9]%Z
                [Scripted.ok_response; Scripted.ok_response; Scripted.ok_response] 0 3300).
  refine (proj2 (upload_loop_pacing Scripted.poster "Daily build" "archive"
                   Scripted.three_parts (Scripted.manager 0 3300)
                   (Scripted.world0 [1; 5; 9]%Z
                      [Scripted.ok_response; Scripted.ok_response; Scripted.ok_response])
                   (fst (fst out)) (snd (fst out)) (snd out) _) _).
  - vm_compute. reflexivity.
  - vm_compute. reflexivity.
Defined.

(* ================================================================ *)
(** * Properties of [ConfigManager] and [TelegramPoster.__init__] *)
(* ================================================================ *)

Lemma assoc_set_same {A : Type} (key : string) (v : A) (entries : list (string * A)) :
  assoc key (assoc_set key v entries) = Some v.
Proof.
  induction entries as [|[k old] rest IH]; simpl.
  - now rewrite String.eqb_refl.
  - destruct (String.eqb k key) eqn:E; simpl; rewrite E; [reflexivity | exact IH].
Qed.

Lemma assoc_set_other {A : Type} (key other : string) (v : A)
    (entries : list (string * A)) :
  other <> key ->
  assoc other (assoc_set key v entries) = assoc other entries.
Proof.
  intros Hne. induction entries as [|[k old] rest IH]; simpl.
  - destruct (String.eqb key other) eqn:E; [|reflexivity].
    apply String.eqb_eq in E. congruence.
  - destruct (String.eqb k key) eqn:E; simpl.
    + apply String.eqb_eq in E. subst k.
      destruct (String.eqb key other) eqn:E2; [|reflexivity].
      apply String.eqb_eq in E2. congruence.
    + destruct (String.eqb k other); [reflexivity | exact IH].
Qed.

Section ConfigProperties.
Context {num W : Type} {NUM : PyNum num} {VAL : PyValue num}
        {OSI : OS num W} {HOST : Host num W}.

(** One injection step on a configuration that has a telegram
    section. *)
Lemma inject_one_section (value : option string) (key msg : string)
    (entries : list (string * json num)) (tg : list (string * json num))
    (evs : list (event num)) :
  assoc "telegram" entries = Some (JDict tg) ->
  exists entries' tg' evs',
    inject_one value key msg (Ret (JDict entries), evs) = (Ret (JDict entries'), evs')
    /\ assoc "telegram" entries' = Some (JDict tg')
    /\ (forall s, s <> "telegram" -> assoc s entries' = assoc s entries)
    /\ assoc key tg' = env_or value (assoc key tg)
    /\ (forall k, k <> key -> assoc k tg' = assoc k tg).
Proof.
  intros Htg. unfold inject_one, env_or.
  destruct value as [v|].
  - destruct (PyStr.truthy v).
    + unfold set_nested. rewrite Htg.
      do 3 eexists. split; [reflexivity|].
      split; [apply assoc_set_same|].
      split; [intros s Hs; now apply assoc_set_other|].
      split; [apply assoc_set_same | intros k Hk; now apply assoc_set_other].
    + exists entries, tg, evs. repeat split; auto.
  - exists entries, tg, evs. repeat split; auto.
Qed.

(** The three injection steps on a configuration that has a telegram
    section. *)
Lemma inject_environment_variables_section (environ : list (string * string))
    (entries tg : list (string * json num)) :
  assoc "telegram" entries = Some (JDict tg) ->
  exists entries' tg',
    fst (inject_environment_variables environ (JDict entries)) = Ret (JDict entries')
    /\ assoc "telegram" entries' = Some (JDict tg')
    /\ (forall s, s <> "telegram" -> assoc s entries' = assoc s entries)
    /\ assoc "bot_token" tg'
       = env_or (assoc "TELEGRAM_BOT_TOKEN" environ) (assoc "bot_token" tg)
    /\ assoc "channel_id" tg'
       = env_or (assoc "TELEGRAM_CHANNEL_ID" environ) (assoc "channel_id" tg)
    /\ assoc "channel_handle_id" tg'
       = env_or (assoc "TELEGRAM_CHANNEL_HANDLE" environ) (assoc "channel_handle_id" tg)
    /\ (forall k, k <> "bot_token" -> k <> "channel_id" -> k <> "channel_handle_id" ->
                  assoc k tg' = assoc k tg).
Proof.
  intros Htg. unfold inject_environment_variables.
  destruct (inject_one_section (assoc "TELEGRAM_BOT_TOKEN" environ) "bot_token"
              "Loaded Telegram Bot Token from environment variable."
              entries tg [] Htg)
    as [e1 [t1 [v1 [H1 [Htg1 [Hs1 [Hk1 Ho1]]]]]]].
  rewrite H1.
  destruct (inject_one_section (assoc "TELEGRAM_CHANNEL_ID" environ) "channel_id"
              "Loaded Telegram Channel ID from environment variable."
              e1 t1 v1 Htg1)
    as [e2 [t2 [v2 [H2 [Htg2 [Hs2 [Hk2 Ho2]]]]]]].
  rewrite H2.
  destruct (inject_one_section (assoc "TELEGRAM_CHANNEL_HANDLE" environ) "channel_handle_id"
              "Loaded Telegram Channel Handle from environment variable."
              e2 t2 v2 Htg2)
    as [e3 [t3 [v3 [H3 [Htg3 [Hs3 [Hk3 Ho3]]]]]]].
  rewrite H3.
  exists e3, t3. split; [reflexivity|].
  split; [exact Htg3|].
  split; [intros s Hs; now rewrite Hs3, Hs2, Hs1|].
  split; [rewrite Ho3, Ho2, Hk1 by discriminate; reflexivity|].
  split; [rewrite Ho3, Hk2 by discriminate; now rewrite Ho1 by discriminate|].
  split; [rewrite Hk3; now rewrite Ho2, Ho1 by discriminate|].
  intros k Ha Hb Hc. now rewrite Ho3, Ho2, Ho1.
Qed.

(** X14.  Injection of the environment into a configuration that has
    a telegram section never fails; afterwards each of [bot_token],
    [channel_id] and [channel_handle_id] holds the value of its
    environment variable when that variable is set and not empty, and
    the value of the file otherwise; every other key of the section
    and every other section is as in the file. *)
Theorem inject_environment_variables_override (environ : list (string * string))
    (entries tg : list (string * json num)) :
  assoc "telegram" entries = Some (JDict tg) ->
  exists entries' tg',
    fst (inject_environment_variables environ (JDict entries)) = Ret (JDict entries')
    /\ assoc "telegram" entries' = Some (JDict tg')
    /\ (forall s, s <> "telegram" -> assoc s entries' = assoc s entries)
    /\ assoc "bot_token" tg'
       = env_or (assoc "TELEGRAM_BOT_TOKEN" environ) (assoc "bot_token" tg)
    /\ assoc "channel_id" tg'
       = env_or (assoc "TELEGRAM_CHANNEL_ID" environ) (assoc "channel_id" tg)
    /\ assoc "channel_handle_id" tg'
       = env_or (assoc "TELEGRAM_CHANNEL_HANDLE" environ) (assoc "channel_handle_id" tg)
    /\ (forall k, k <> "bot_token" -> k <> "channel_id" -> k <> "channel_handle_id" ->
                  assoc k tg' = assoc k tg).
Proof.
  intros. eapply inject_environment_variables_section; eassumption.
Qed.

(** X15.  With no environment variable set (or all of them empty) the
    injection returns the configuration it was given, whatever that
    configuration is, and logs nothing. *)
Theorem inject_environment_variables_unset (environ : list (string * string))
    (config : json num) :
  env_set environ "TELEGRAM_BOT_TOKEN" = false ->
  env_set environ "TELEGRAM_CHANNEL_ID" = false ->
  env_set environ "TELEGRAM_CHANNEL_HANDLE" = false ->
  inject_environment_variables environ config = (Ret config, []).
Proof.
  unfold env_set, inject_environment_variables, inject_one.
  intros Ha Hb Hc.
  destruct (assoc "TELEGRAM_BOT_TOKEN" environ) as [a|]; [rewrite Ha|];
    (destruct (assoc "TELEGRAM_CHANNEL_ID" environ) as [b|]; [rewrite Hb|]);
    (destruct (assoc "TELEGRAM_CHANNEL_HANDLE" environ) as [c|]; [rewrite Hc|]);
    reflexivity.
Qed.

(** X16.  A configuration file without a telegram section cannot
    receive secrets from the environment: as soon as one of the three
    variables is set and not empty, the injection raises [KeyError]. *)
Theorem inject_environment_variables_no_section (environ : list (string * string))
    (entries : list (string * json num)) :
  assoc "telegram" entries = None ->
  env_set environ "TELEGRAM_BOT_TOKEN"
  || env_set environ "TELEGRAM_CHANNEL_ID"
  || env_set environ "TELEGRAM_CHANNEL_HANDLE" = true ->
  fst (inject_environment_variables environ (JDict entries))
  = Raise (OtherException "KeyError").
Proof.
  unfold env_set, inject_environment_variables, inject_one, set_nested.
  intros Htg Hset. rewrite Htg.
  destruct (assoc "TELEGRAM_BOT_TOKEN" environ) as [a|]; [destruct (PyStr.truthy a)|];
    (destruct (assoc "TELEGRAM_CHANNEL_ID" environ) as [b|]; [destruct (PyStr.truthy b)|]);
    (destruct (assoc "TELEGRAM_CHANNEL_HANDLE" environ) as [c|]; [destruct (PyStr.truthy c)|]);
    try reflexivity; try rewrite Htg; try reflexivity; discriminate.
Qed.

Lemma truthy_not_null (v : json num) : json_truthy v = true -> v <> JNull.
Proof. intros H ->. discriminate. Qed.

(** A truthy value read with [telegram_get] is stored under its key
    in a telegram section that is a dict. *)
Lemma telegram_get_truthy (config : json num) (key : string) (v : json num) :
  telegram_get config key = Ret v ->
  json_truthy v = true ->
  exists entries tg,
    config = JDict entries
    /\ assoc "telegram" entries = Some (JDict tg)
    /\ assoc key tg = Some v.
Proof.
  unfold telegram_get, dict_get.
  destruct config as [| | | | |entries]; try discriminate.
  destruct (assoc "telegram" entries) as [[| | | | |tg]|] eqn:Htg; try discriminate.
  - intros H Hv. injection H as H.
    destruct (assoc key tg) as [x|] eqn:Hk.
    + subst x. now exists entries, tg.
    + subst v. discriminate.
  - simpl. intros H Hv. injection H as <-. discriminate.
Qed.

(** A validated configuration builds a poster. *)
Lemma validate_done_poster (config : json num) :
  fst (validate_critical_configs config) = Done tt ->
  exists poster,
    TelegramPoster_init config = Ret poster
    /\ poster_config poster = config
    /\ json_truthy (bot_token poster) = true
    /\ json_truthy (channel_id poster) = true
    /\ api_url poster = ("https://api.telegram.org/bot" ++ py_str (bot_token poster))%string.
Proof.
  unfold validate_critical_configs.
  destruct (telegram_get config "bot_token") as [token|e] eqn:Ht; [|discriminate].
  destruct (json_truthy token) eqn:Htt; [|discriminate]. cbn [negb].
  destruct (telegram_get config "channel_id") as [channel|e] eqn:Hc; [|discriminate].
  destruct (json_truthy channel) eqn:Hct; [|discriminate]. cbn [negb].
  intros _.
  destruct (telegram_get_truthy _ _ _ Ht Htt) as [entries [tg [-> [Htg Hk]]]].
  destruct (telegram_get_truthy _ _ _ Hc Hct) as [entries' [tg' [Heq [Htg' Hk']]]].
  inversion Heq; subst; clear Heq.
  rewrite Htg in Htg'. inversion Htg'; subst; clear Htg'.
  unfold TelegramPoster_init, dict_index. rewrite Htg, Hk, Hk'.
  eexists. split; [reflexivity|]. simpl. auto.
Qed.

(** X17.  A configuration that passes the validation can always be
    handed to [TelegramPoster]: the constructor does not raise, and
    the poster it builds holds a truthy bot token and channel id and
    the URL [https://api.telegram.org/bot<token>]. *)
Theorem validate_critical_configs_poster (config : json num) :
  fst (validate_critical_configs config) = Done tt ->
  exists poster,
    TelegramPoster_init config = Ret poster
    /\ poster_config poster = config
    /\ json_truthy (bot_token poster) = true
    /\ json_truthy (channel_id poster) = true
    /\ api_url poster = ("https://api.telegram.org/bot" ++ py_str (bot_token poster))%string.
Proof.
  intros. eapply validate_done_poster; eassumption.
Qed.

(** X18.  What [load] returns is usable and honours the environment:
    the constructor of [TelegramPoster] accepts it, and a bot token or
    channel id set (and not empty) in the environment is the one the
    poster holds, whatever the file says. *)
Theorem ConfigManager_load_poster (config_path : Path) (w w' : W)
    (config : json num) (tr : list (event num)) :
  ConfigManager_load config_path w = (Done config, w', tr) ->
  exists poster,
    TelegramPoster_init config = Ret poster
    /\ json_truthy (bot_token poster) = true
    /\ json_truthy (channel_id poster) = true
    /\ (forall v, assoc "TELEGRAM_BOT_TOKEN" (os_environ w') = Some v ->
                  PyStr.truthy v = true ->
                  bot_token poster = JStr v
                  /\ api_url poster = ("https://api.telegram.org/bot" ++ v)%string)
    /\ (forall v, assoc "TELEGRAM_CHANNEL_ID" (os_environ w') = Some v ->
                  PyStr.truthy v = true ->
                  channel_id poster = JStr v).
Proof.
  unfold ConfigManager_load.
  destruct (path_exists config_path w); cbn [negb]; [|discriminate].
  destruct (json_load config_path w) as [[file|m|e] w1]; try discriminate.
  destruct (inject_environment_variables (os_environ w1) file) as [[cfg|e] evs] eqn:Hinj;
    [|discriminate].
  destruct (validate_critical_configs cfg) as [[[]|code|e] evs'] eqn:Hval; try discriminate.
  intros H. inversion H; subst. clear H.
  assert (Hv : fst (validate_critical_configs config) = Done tt) by now rewrite Hval.
  destruct (validate_done_poster config Hv)
    as [poster [Hinit [Hcfg [Htok [Hch Hurl]]]]].
  exists poster. split; [exact Hinit|]. split; [exact Htok|]. split; [exact Hch|].
  (* the shape of the file, from the success of the injection *)
  assert (Hshape :
            (env_set (os_environ w') "TELEGRAM_BOT_TOKEN"
             || env_set (os_environ w') "TELEGRAM_CHANNEL_ID"
             || env_set (os_environ w') "TELEGRAM_CHANNEL_HANDLE" = true) ->
            exists entries tg, file = JDict entries
                               /\ assoc "telegram" entries = Some (JDict tg)).
  { unfold env_set. intros Hset. revert Hset Hinj.
    unfold inject_environment_variables, inject_one, set_nested.
    destruct file as [| | | | |entries];
      try (destruct (assoc "TELEGRAM_BOT_TOKEN" (os_environ w')) as [va|];
             [destruct (PyStr.truthy va)|];
           (destruct (assoc "TELEGRAM_CHANNEL_ID" (os_environ w')) as [vb|];
              [destruct (PyStr.truthy vb)|]);
           (destruct (assoc "TELEGRAM_CHANNEL_HANDLE" (os_environ w')) as [vc|];
              [destruct (PyStr.truthy vc)|]);
           simpl; intros; discriminate).
    destruct (assoc "telegram" entries) as [[| | | | |tg]|] eqn:Htg;
      try (destruct (assoc "TELEGRAM_BOT_TOKEN" (os_environ w')) as [va|];
             [destruct (PyStr.truthy va)|];
           (destruct (assoc "TELEGRAM_CHANNEL_ID" (os_environ w')) as [vb|];
              [destruct (PyStr.truthy vb)|]);
           (destruct (assoc "TELEGRAM_CHANNEL_HANDLE" (os_environ w')) as [vc|];
              [destruct (PyStr.truthy vc)|]);
           simpl; try rewrite Htg; intros; discriminate).
    intros _ _. now exists entries, tg. }
  unfold TelegramPoster_init, dict_index in Hinit.
  split.
  - intros v Hv1 Hv2.
    destruct Hshape as [entries [tg [-> Htg]]].
    { unfold env_set. rewrite Hv1, Hv2. reflexivity. }
    destruct (inject_environment_variables_section (os_environ w') entries tg Htg)
      as [entries' [tg' [Hr [Htg' [_ [Hbot _]]]]]].
    rewrite Hinj in Hr. simpl in Hr. injection Hr as ->.
    rewrite Htg' in Hinit. unfold env_or in Hbot. rewrite Hv1, Hv2 in Hbot.
    rewrite Hbot in Hinit.
    destruct (assoc "channel_id" tg'); [|discriminate].
    injection Hinit as <-. simpl. now split.
  - intros v Hv1 Hv2.
    destruct Hshape as [entries [tg [-> Htg]]].
    { unfold env_set. rewrite Hv1, Hv2. now rewrite orb_true_r. }
    destruct (inject_environment_variables_section (os_environ w') entries tg Htg)
      as [entries' [tg' [Hr [Htg' [_ [_ [Hchan _]]]]]]].
    rewrite Hinj in Hr. simpl in Hr. injection Hr as ->.
    rewrite Htg' in Hinit. unfold env_or in Hchan. rewrite Hv1, Hv2 in Hchan.
    destruct (assoc "bot_token" tg'); [|discriminate].
    rewrite Hchan in Hinit. injection Hinit as <-. reflexivity.
Qed.

End ConfigProperties.

(** The file sets both values; the environment overrides the token. *)
Lemma inject_environment_variables_override_witness :
  exists config',
    fst (inject_environment_variables [("TELEGRAM_BOT_TOKEN", "ENV-TOKEN")]
           ScriptedHost.file_config) = Ret config'
    /\ telegram_get config' "bot_token" = Ret (JStr "ENV-TOKEN")
    /\ telegram_get config' "channel_id" = Ret (JStr "@file").
Proof.
  destruct (inject_environment_variables_override (num := Z)
              [("TELEGRAM_BOT_TOKEN", "ENV-TOKEN")]
              [("telegram", JDict [("bot_token", JStr "FILE-TOKEN"); ("channel_id", JStr "@file")]);
               ("source_repo", JDict [("url", JStr "https://example.org/repo.git");
                                      ("folder_to_zip", JStr "data")])]
              [("bot_token", JStr "FILE-TOKEN"); ("channel_id", JStr "@file")]
              eq_refl)
    as [entries' [tg' [Hr [Htg [_ [Hbot [Hchan _]]]]]]].
  exists (JDict entries'). split; [exact Hr|].
  unfold telegram_get, dict_get. rewrite Htg, Hbot, Hchan. split; reflexivity.
Defined.

Lemma inject_environment_variables_unset_witness :
  inject_environment_variables (num := Z) [("TELEGRAM_CHANNEL_ID", "")] (JList [])
  = (Ret (JList []), []).
Proof.
  apply (inject_environment_variables_unset (num := Z)
           [("TELEGRAM_CHANNEL_ID", "")] (JList [])); reflexivity.
Defined.

Lemma inject_environment_variables_no_section_witness :
  fst (inject_environment_variables (num := Z) [("TELEGRAM_CHANNEL_ID", "@env")]
         (JDict [("output", JDict [])]))
  = Raise (OtherException "KeyError").
Proof.
  apply (inject_environment_variables_no_section (num := Z)
           [("TELEGRAM_CHANNEL_ID", "@env")] [("output", JDict [])]); reflexivity.
Defined.

Lemma validate_critical_configs_poster_witness :
  exists poster,
    TelegramPoster_init ScriptedHost.file_config = Ret poster
    /\ poster_config poster = ScriptedHost.file_config
    /\ json_truthy (bot_token poster) = true
    /\ json_truthy (channel_id poster) = true
    /\ api_url poster = ("https://api.telegram.org/bot" ++ py_str (bot_token poster))%string.
Proof.
  apply (validate_critical_configs_poster (num := Z) ScriptedHost.file_config).
  reflexivity.
Defined.

(** The file says [FILE-TOKEN], the environment [ENV-TOKEN]. *)
Lemma ConfigManager_load_poster_witness :
  exists poster,
    TelegramPoster_init
      (match fst (fst (ConfigManager_load "data/preferences.json"
                         ScriptedHost.world_with_config)) with
       | Done config => config
       | _ => JNull
       end) = Ret poster
    /\ bot_token poster = JStr "ENV-TOKEN".
Proof.
  set (out := ConfigManager_load "data/preferences.json" ScriptedHost.world_with_config).
  assert (Hload : ConfigManager_load "data/preferences.json" ScriptedHost.world_with_config
                  = (Done (match fst (fst out) with Done config => config | _ => JNull end),
                     snd (fst out), snd out))
    by (vm_compute; reflexivity).
  destruct (ConfigManager_load_poster _ _ _ _ _ Hload) as [poster [Hinit [_ [_ [Htok _]]]]].
  exists poster. split; [exact Hinit|].
  exact (proj1 (Htok "ENV-TOKEN" eq_refl eq_refl)).
Defined.

(* ================================================================ *)
(** * Properties of [FolderFetcher] and of the body of [main] *)
(* ================================================================ *)

Section PipelineProperties.
Context {num W : Type} {NUM : PyNum num} {VAL : PyValue num}
        {OSI : OS num W} {HOST : Host num W}.

(** How [clone_repo] can end. *)
Lemma clone_repo_cases (self : FolderFetcher) (temp_dir : Path) (w : W) :
  exists (cloned : bool) (w' : W) (tr : list (event num)),
    clone_repo self temp_dir w = (Ret cloned, w', tr)
    /\ uploads tr = []
    /\ (json_truthy (repo_url self) = false ->
        cloned = false /\ w' = w /\ filter is_external tr = [])
    /\ (all_str (git_command self temp_dir) = None ->
        cloned = false /\ w' = w /\ filter is_external tr = [])
    /\ (cloned = true ->
        json_truthy (repo_url self) = true
        /\ exists command out,
             all_str (git_command self temp_dir) = Some command
             /\ subprocess_run command w = (Ret out, w')
             /\ filter is_external tr = [EvRun command]).
Proof.
  unfold clone_repo, run_args. unfold_monad. cbv beta.
  destruct (json_truthy (repo_url self)) eqn:Hurl; cbn [negb]; cbv beta iota.
  2:{ do 3 eexists. split; [reflexivity|]. simpl.
      repeat split; intros; try discriminate; auto. }
  destruct (all_str (git_command self temp_dir)) as [command|] eqn:Hargs; cbv beta iota.
  2:{ do 3 eexists. split; [reflexivity|]. simpl.
      repeat split; intros; try discriminate; auto. }
  destruct (subprocess_run command w) as [[out|e] w1] eqn:Hrun; cbv beta iota.
  - do 3 eexists. split; [reflexivity|]. simpl.
    split; [reflexivity|]. split; [discriminate|]. split; [discriminate|].
    intros _. split; [reflexivity|]. exists command, out. auto.
  - destruct (is_FileNotFoundError e); [|destruct (is_CalledProcessError e)];
      do 3 eexists; (split; [reflexivity|]); simpl;
      repeat split; intros; try discriminate; auto.
Qed.

(** X19.  [clone_repo] never raises.  It answers [True] only when the
    configured URL is truthy, every item of the command is a string
    and git, run once, returned normally.  When the URL is missing or
    empty, or when the URL or the branch is not a string, it answers
    [False] without running any program. *)
Theorem clone_repo_total (self : FolderFetcher) (temp_dir : Path) (w : W) :
  exists (cloned : bool) (w' : W) (tr : list (event num)),
    clone_repo self temp_dir w = (Ret cloned, w', tr)
    /\ (json_truthy (repo_url self) = false ->
        cloned = false /\ w' = w /\ filter is_external tr = [])
    /\ (all_str (git_command self temp_dir) = None ->
        cloned = false /\ w' = w /\ filter is_external tr = [])
    /\ (cloned = true ->
        json_truthy (repo_url self) = true
        /\ exists command out,
             all_str (git_command self temp_dir) = Some command
             /\ subprocess_run command w = (Ret out, w')
             /\ filter is_external tr = [EvRun command]).
Proof.
  destruct (clone_repo_cases self temp_dir w) as [b [w' [tr [H [_ Hrest]]]]].
  exists b, w', tr. split; assumption.
Qed.

(** X20.  The command of the clone, for a configuration whose
    [source_repo] section gives a URL string: a shallow clone
    ([--depth 1]) of one branch into the temporary directory; the
    branch is [main] when the section names none, and the configured
    one otherwise. *)
Theorem FolderFetcher_git_command (entries section : list (string * json num))
    (url : string) (temp_dir : Path) :
  assoc "source_repo" entries = Some (JDict section) ->
  assoc "url" section = Some (JStr url) ->
  exists self,
    FolderFetcher_init (JDict entries) = Ret self
    /\ (assoc "branch" section = None ->
        all_str (git_command self temp_dir)
        = Some ["git"; "clone"; "--depth"; "1"; "--branch"; "main"; url; temp_dir])
    /\ (forall b, assoc "branch" section = Some (JStr b) ->
        all_str (git_command self temp_dir)
        = Some ["git"; "clone"; "--depth"; "1"; "--branch"; b; url; temp_dir]).
Proof.
  intros Hs Hu. unfold FolderFetcher_init, dict_get. rewrite Hs, Hu.
  eexists. split; [reflexivity|].
  unfold git_command. cbn [branch repo_url].
  split.
  - intros ->. reflexivity.
  - intros b ->. reflexivity.
Qed.

(** The archive builder posts nothing. *)
Lemma create_multivolume_archive_quiet
    (directory_to_zip archive_output_path : Path) (chunk_size_mb : Z) (w : W) :
  forall r w' tr,
    create_multivolume_archive directory_to_zip archive_output_path chunk_size_mb w
    = (r, w', tr) ->
    uploads tr = [].
Proof.
  unfold create_multivolume_archive, run_7z. unfold_monad. cbv beta.
  destruct (path_is_dir_error directory_to_zip w); cbv beta iota;
    [intros r w' tr H; inversion H; reflexivity|].
  destruct (path_is_dir directory_to_zip w); cbn [negb]; cbv beta iota;
    [|intros r w' tr H; inversion H; reflexivity].
  destruct (subprocess_run _ w) as [[out|e] w1]; cbv beta iota.
  - destruct (path_glob_error _ _ w1); cbv beta iota;
      [intros r w' tr H; inversion H; reflexivity|].
    destruct (is_empty _); [|intros r w' tr H; inversion H; reflexivity].
    destruct (path_exists_error archive_output_path w1); cbv beta iota;
      [intros r w' tr H; inversion H; reflexivity|].
    destruct (path_exists archive_output_path w1);
      intros r w' tr H; inversion H; reflexivity.
  - destruct (is_FileNotFoundError e); [|destruct (is_CalledProcessError e)];
      intros r w' tr H; inversion H; reflexivity.
Qed.

(** X21.  Nothing is posted to the channel unless everything before
    succeeded: if a run of the body of [main] posts a request, then
    the clone answered [True], a folder name was configured and not
    empty, that folder was a directory of the clone, and the archive
    builder returned at least one part. *)
Theorem pipeline_uploads_need_success (fetcher : FolderFetcher)
    (runtime_manager : RuntimeManager) (poster_config : json num) (temp_dir : Path)
    (folder_to_zip_name : option string) (source_dir : string -> Path)
    (archive_output_path : Path) (chunk_size_mb : Z)
    (output_archive_basename base_text channel_handle : string)
    (w w' : W) (r : result unit) (tr : list (event num)) :
  pipeline fetcher runtime_manager poster_config temp_dir folder_to_zip_name source_dir
    archive_output_path chunk_size_mb output_archive_basename base_text channel_handle w
  = (r, w', tr) ->
  uploads tr <> [] ->
  exists w1 t1 name parts w2 t2,
    clone_repo fetcher temp_dir w = (Ret true, w1, t1)
    /\ folder_to_zip_name = Some name
    /\ PyStr.truthy name = true
    /\ path_is_dir (source_dir name) w1 = true
    /\ create_multivolume_archive (source_dir name) archive_output_path chunk_size_mb w1
       = (Ret parts, w2, t2)
    /\ parts <> [].
Proof.
  intros H Hup.
  unfold pipeline in H. unfold bind at 1 in H.
  destruct (clone_repo_cases fetcher temp_dir w) as [cloned [w1 [t1 [Hclone [Hu1 _]]]]].
  rewrite Hclone in H. cbv beta iota in H.
  destruct cloned; cbn [negb] in H.
  2:{ unfold_monad. inversion H; subst. rewrite uploads_app, Hu1 in Hup. now elim Hup. }
  destruct folder_to_zip_name as [name|].
  2:{ unfold_monad. inversion H; subst. rewrite uploads_app, Hu1 in Hup. now elim Hup. }
  destruct (PyStr.truthy name) eqn:Hname; cbn [negb] in H.
  2:{ unfold_monad. inversion H; subst. rewrite uploads_app, Hu1 in Hup. now elim Hup. }
  unfold bind at 1 in H. unfold call_is_dir at 1 in H. cbv beta iota in H.
  destruct (path_is_dir (source_dir name) w1) eqn:Hdir; cbn [negb] in H.
  2:{ unfold_monad. inversion H; subst. rewrite uploads_app, Hu1 in Hup. now elim Hup. }
  unfold bind at 1 in H.
  destruct (create_multivolume_archive (source_dir name) archive_output_path
              chunk_size_mb w1) as [[[parts|e] w2] t2] eqn:Hcreate;
    pose proof (create_multivolume_archive_quiet _ _ _ _ _ _ _ Hcreate) as Hu2;
    cbv beta iota in H.
  2:{ inversion H; subst. rewrite uploads_app, Hu1, Hu2 in Hup. now elim Hup. }
  destruct (is_empty parts) eqn:Hempty.
  { unfold_monad. inversion H; subst.
    rewrite uploads_app in Hup. simpl in Hup. rewrite !uploads_app, Hu1, Hu2 in Hup.
    now elim Hup. }
  exists w1, t1, name, parts, w2, t2.
  repeat split; try assumption; try reflexivity.
  intros ->. discriminate.
Qed.

(** X22.  A failed clone ends the body of [main] at once: it returns
    normally and, after the effects of the clone, only logs the
    abort; no compressor is run, nothing is renamed, the clock is not
    read and nothing is posted. *)
Theorem pipeline_stops_after_failed_clone (fetcher : FolderFetcher)
    (runtime_manager : RuntimeManager) (poster_config : json num) (temp_dir : Path)
    (folder_to_zip_name : option string) (source_dir : string -> Path)
    (archive_output_path : Path) (chunk_size_mb : Z)
    (output_archive_basename base_text channel_handle : string)
    (w w1 : W) (t1 : list (event num)) :
  clone_repo fetcher temp_dir w = (Ret false, w1, t1) ->
  pipeline fetcher runtime_manager poster_config temp_dir folder_to_zip_name source_dir
    archive_output_path chunk_size_mb output_archive_basename base_text channel_handle w
  = (Ret tt, w1, t1 ++ [EvLog ERROR "Aborting workflow due to clone failure."])
  /\ length (filter is_run t1) <= 1
  /\ filter is_external t1 = filter is_run t1.
Proof.
  intros Hclone. split.
  - unfold pipeline. unfold bind at 1. rewrite Hclone. reflexivity.
  - revert Hclone. unfold clone_repo, run_args. unfold_monad. cbv beta.
    destruct (json_truthy (repo_url fetcher)); cbn [negb]; cbv beta iota.
    2:{ intros H; inversion H; subst. simpl. split; [lia | reflexivity]. }
    destruct (all_str (git_command fetcher temp_dir)) as [command|]; cbv beta iota.
    2:{ intros H; inversion H; subst. simpl. split; [lia | reflexivity]. }
    destruct (subprocess_run command w) as [[out|e] w2]; cbv beta iota.
    + intros H; inversion H.
    + destruct (is_FileNotFoundError e); [|destruct (is_CalledProcessError e)];
        intros H; inversion H; subst; simpl; (split; [lia | reflexivity]).
Qed.

End PipelineProperties.

Lemma FolderFetcher_git_command_witness :
  exists self,
    FolderFetcher_init ScriptedHost.file_config = Ret self
    /\ all_str (git_command self "/tmp/w")
       = Some ["git"; "clone"; "--depth"; "1"; "--branch"; "main";
               "https://example.org/repo.git"; "/tmp/w"].
Proof.
  destruct (FolderFetcher_git_command (num := Z)
              [("telegram", JDict [("bot_token", JStr "FILE-TOKEN"); ("channel_id", JStr "@file")]);
               ("source_repo", JDict [("url", JStr "https://example.org/repo.git");
                                      ("folder_to_zip", JStr "data")])]
              [("url", JStr "https://example.org/repo.git"); ("folder_to_zip", JStr "data")]
              "https://example.org/repo.git" "/tmp/w" eq_refl eq_refl)
    as [self [Hinit [Hmain _]]].
  exists self. split; [exact Hinit | exact (Hmain eq_refl)].
Defined.

(** Clone and compression succeed and two parts are found: requests
    are posted, and the clone had answered [True]. *)
Lemma pipeline_uploads_need_success_witness :
  exists w1 t1,
    clone_repo ScriptedHost.fetcher "/tmp/w"
      (Scripted.world_7z (Ret "ok") ["/tmp/w/archive.7z.001"; "/tmp/w/archive.7z.002"]
         (Ret tt))
    = (Ret true, w1, t1).
Proof.
  set (w := Scripted.world_7z (Ret "ok")
              ["/tmp/w/archive.7z.001"; "/tmp/w/archive.7z.002"] (Ret tt)).
  set (out := ScriptedHost.run_pipeline w).
  assert (Hrun : pipeline ScriptedHost.fetcher (Scripted.manager 0 3300)
                   ScriptedHost.file_config "/tmp/w" (Some "data")
                   (fun name => ("/tmp/w/" ++ name)%string) "/tmp/w/archive.7z" 15
                   "archive" "Daily build" "@channel" w
                 = (fst (fst out), snd (fst out), snd out))
    by (vm_compute; reflexivity).
  assert (Hup : uploads (snd out) <> []) by (vm_compute; discriminate).
  destruct (pipeline_uploads_need_success _ _ _ _ _ _ _ _ _ _ _ _ _ _ _ Hrun Hup)
    as [w1 [t1 [name [parts [w2 [t2 [Hclone _]]]]]]].
  exists w1, t1. exact Hclone.
Defined.

(** The repository does not exist: git exits with status 128. *)
Lemma pipeline_stops_after_failed_clone_witness :
  fst (fst (ScriptedHost.run_pipeline ScriptedHost.world_with_config)) = Ret tt
  /\ uploads (snd (ScriptedHost.run_pipeline ScriptedHost.world_with_config)) = [].
Proof.
  set (w := ScriptedHost.world_with_config).
  set (c := clone_repo ScriptedHost.fetcher "/tmp/w" w).
  assert (Hclone : clone_repo ScriptedHost.fetcher "/tmp/w" w
                   = (Ret false, snd (fst c), snd c))
    by (vm_compute; reflexivity).
  destruct (pipeline_stops_after_failed_clone ScriptedHost.fetcher
              (Scripted.manager 0 3300) ScriptedHost.file_config "/tmp/w" (Some "data")
              (fun name => ("/tmp/w/" ++ name)%string) "/tmp/w/archive.7z" 15
              "archive" "Daily build" "@channel" w _ _ Hclone) as [Hrun _].
  unfold ScriptedHost.run_pipeline. fold w. rewrite Hrun.
  split; [reflexivity | vm_compute; reflexivity].
Defined.
